(** * pdeathsignal: the signal-set codec and the spawn trampoline

    A shallow embedding of [pdeathsignal.c]: the [sigign] argument
    converter, the [exec_trampoline] entry point that runs in the cloned
    process, and the caller side of [cloneandexecve].

    Conventions.
    - [int], [long] and [pid_t] values are [Z]; [uint64_t] and [unsigned]
      values are [N], with the wrap-around of a conversion written out.
    - The CPython calls the converters make are modelled on the object
      shapes below; each returns its C result together with the error
      indicator it leaves behind.
    - System calls are answered by an oracle ([ProcEnv]); the descriptor the
      two processes share is passed along explicitly. *)

From Stdlib Require Import ZArith NArith List Ascii String Bool Lia Sorted.
From Equations Require Import Equations.
Import ListNotations.
Local Open Scope string_scope.
Local Open Scope list_scope.
Local Open Scope Z_scope.
Local Set Warnings "-register-all".

(** ** Python objects, as far as the converters look at them *)

Inductive PyExc : Type :=
| PyExc_TypeError
| PyExc_OverflowError
| PyExc_StopIteration
| PyExc_ValueError
| PyExc_OSError
| PyExc_SystemError
| PyExc_MemoryError
| PyExc_Exception.

Definition PyExc_eqb (a b : PyExc) : bool :=
  match a, b with
  | PyExc_TypeError, PyExc_TypeError
  | PyExc_OverflowError, PyExc_OverflowError
  | PyExc_StopIteration, PyExc_StopIteration
  | PyExc_ValueError, PyExc_ValueError
  | PyExc_OSError, PyExc_OSError
  | PyExc_SystemError, PyExc_SystemError
  | PyExc_MemoryError, PyExc_MemoryError
  | PyExc_Exception, PyExc_Exception => true
  | _, _ => false
  end.

(** [PyOpaque] is an object that is neither an [int] nor iterable (a float,
    say); its truth test answers or raises.  [PySeq] is a list or a tuple.
    [PyGen] is an iterator object: it yields [elems], after which its
    [tp_iternext] returns [NULL] with [stop] in the error indicator. *)
Inductive PyObject : Type :=
| Py_None
| PyBool (b : bool)
| PyLong (z : Z)
| PyOpaque (truth : PyExc + bool)
| PySeq (elems : list PyObject)
| PyGen (elems : list PyObject) (stop : option PyExc).

(** The error indicator: [None] when no exception is set. *)
Definition PyErr : Type := option PyExc.

Definition PyErr_Occurred (e : PyErr) : bool :=
  match e with Some _ => true | None => false end.

Definition PyErr_ExceptionMatches (e : PyErr) (exc : PyExc) : bool :=
  match e with Some x => PyExc_eqb x exc | None => false end.

(** What a converter hands back: the converted value, or failure together
    with the error indicator it returns with. *)
Inductive Converted (A : Type) : Type :=
| Ok (a : A)
| Fail (e : PyErr).
Arguments Ok {A} a.
Arguments Fail {A} e.

(** [PyArg_ParseTupleAndKeywords] when an [O&] converter answers 0: the
    exception the converter has set is the one the call fails with, and a
    converter that has set none makes it fail with [SystemError]. *)
Definition converter_failed (e : PyErr) : PyExc :=
  match e with
  | Some exc => exc
  | None => PyExc_SystemError
  end.

Definition b2z (b : bool) : Z := if b then 1 else 0.

(** [bool] is a subclass of [int]: [PyLong_Check] accepts both. *)
Definition int_value (o : PyObject) : option Z :=
  match o with
  | PyBool b => Some (b2z b)
  | PyLong z => Some z
  | _ => None
  end.

Definition PyObject_IsTrue (o : PyObject) : Z * PyErr :=
  match o with
  | Py_None => (0, None)
  | PyBool b => (b2z b, None)
  | PyLong z => (if z =? 0 then 0 else 1, None)
  | PyOpaque (inl e) => (-1, Some e)
  | PyOpaque (inr b) => (b2z b, None)
  | PySeq [] => (0, None)
  | PySeq (_ :: _) => (1, None)
  | PyGen _ _ => (1, None)
  end.

(** LP64: [long] and [long long] have 64 bits, [int] has 32. *)
Definition LONG_MIN : Z := - 2 ^ 63.
Definition LONG_MAX : Z := 2 ^ 63 - 1.
Definition ULLONG_MAX : Z := 2 ^ 64 - 1.
Definition UINT64_MAX : Z := 2 ^ 64 - 1.

Definition PyLong_AsLong (o : PyObject) : Z * PyErr :=
  match int_value o with
  | Some z =>
      if (z <? LONG_MIN) || (LONG_MAX <? z)
      then (-1, Some PyExc_OverflowError)
      else (z, None)
  | None => (-1, Some PyExc_TypeError)
  end.

Definition PyLong_AsUnsignedLongLong (o : PyObject) : Z * PyErr :=
  match int_value o with
  | Some z =>
      if (z <? 0) || (ULLONG_MAX <? z)
      then (ULLONG_MAX, Some PyExc_OverflowError)
      else (z, None)
  | None => (ULLONG_MAX, Some PyExc_TypeError)
  end.

(** [PyObject_GetIter]: the elements the iterator will yield and the way it
    ends, or [NULL] with [TypeError] for an object that is not iterable. *)
Definition PyObject_GetIter (o : PyObject)
  : option (list PyObject * PyErr) * PyErr :=
  match o with
  | PySeq l => (Some (l, None), None)
  | PyGen l stop => (Some (l, stop), None)
  | _ => (None, Some PyExc_TypeError)
  end.

(** ** C integer conversions *)

(** A value reinterpreted as a 32-bit [int]. *)
Definition to_int (z : Z) : Z := (z + 2 ^ 31) mod 2 ^ 32 - 2 ^ 31.

(** An [int] converted to [uint64_t]: reduced modulo 2^64. *)
Definition int_to_uint64 (z : Z) : N := Z.to_N (z mod 2 ^ 64).

(** [a << n] on operands of type [int].  C defines it for [0 <= n < 32] as
    long as the result fits; beyond that this is what the x86-64 and
    AArch64 shift instructions compute: the count is taken modulo 32 and
    the low 32 bits are kept. *)
Definition int_shl (a n : Z) : Z := to_int (Z.shiftl a (n mod 32)).

(** ** The signal-set codec *)

Section Codec.

(** [_NSIG] of <signal.h>. *)
Variable _NSIG : Z.

Definition pylong_to_signum (obj : PyObject) : Converted Z :=
  let '(value, err) := PyLong_AsLong obj in
  if (value <? 0) || (value >? _NSIG) then
    if negb ((value =? -1) || PyErr_Occurred err)
    then Fail (Some PyExc_OverflowError)
    else Fail err
  else Ok (to_int value).

Definition signal_x_convert (obj : option PyObject) (x : Z) : Converted Z :=
  match obj with
  | None | Some Py_None => Ok x
  | Some o => pylong_to_signum o
  end.

Definition signal_0_convert (obj : option PyObject) : Converted Z :=
  signal_x_convert obj 0.

Definition signal_m1_convert (obj : option PyObject) : Converted Z :=
  signal_x_convert obj (-1).

(** The [for (;;)] loop of [sigign_converter] over the elements the
    iterator yields. *)
Fixpoint sigign_converter_loop (elems : list PyObject) (stop : PyErr)
    (accu : N) : Converted N :=
  match elems with
  | [] =>
      if PyErr_Occurred stop
           && negb (PyErr_ExceptionMatches stop PyExc_StopIteration)
      then Fail stop
      else Ok accu
  | elem :: rest =>
      match pylong_to_signum elem with
      | Fail e => Fail e
      | Ok signum =>
          sigign_converter_loop rest stop
            (if signum >? 0
             then N.lor accu (int_to_uint64 (int_shl 1 (signum - 1)))
             else accu)
      end
  end.

Definition sigign_converter (obj : option PyObject) : Converted N :=
  match obj with
  | None | Some Py_None => Ok 0%N
  | Some o =>
      let '(truthy, terr) := PyObject_IsTrue o in
      if truthy <? 0 then Fail terr
      else if truthy =? 0 then Ok 0%N
      else
        let '(ull_value, err) := PyLong_AsUnsignedLongLong o in
        if (ull_value =? ULLONG_MAX) && PyErr_Occurred err then
          if negb (PyErr_ExceptionMatches err PyExc_TypeError)
          then Fail err
          else
            match PyObject_GetIter o with
            | (None, ierr) => Fail ierr
            | (Some (elems, stop), _) =>
                sigign_converter_loop elems stop 0%N
            end
        else if Z.land ull_value UINT64_MAX =? ull_value
        then Ok (Z.to_N (Z.land ull_value UINT64_MAX))
        else Fail (Some PyExc_OverflowError)
  end.

End Codec.

(** ** The descriptor shared by the caller and the trampoline *)

Definition ETD_SEARCH_PATH : N := 0.
Definition ETD_SETSID : N := 1.
Definition ETD_DOUBLEFORK : N := 2.

Record ExecTrampolineData : Type := mkETD {
  path : string;
  argv : list string;
  envp : option (list string);
  flags : N;
  parent_signal : Z;
  sigign : N;
  childpid : Z;
  fun_ : option string;
  error : Z
}.

(** [flags & (1 << b)] *)
Definition has_flag (f : N) (b : N) : bool :=
  negb (N.land f (N.shiftl 1 b) =? 0)%N.

(** [flags & ~(1 << b)] *)
Definition clear_flag (f : N) (b : N) : N := N.ldiff f (N.shiftl 1 b).

Definition with_flags (d : ExecTrampolineData) (f : N) :=
  mkETD (path d) (argv d) (envp d) f (parent_signal d) (sigign d)
        (childpid d) (fun_ d) (error d).

Definition with_parent_signal (d : ExecTrampolineData) (s : Z) :=
  mkETD (path d) (argv d) (envp d) (flags d) s (sigign d)
        (childpid d) (fun_ d) (error d).

Definition with_sigign (d : ExecTrampolineData) (s : N) :=
  mkETD (path d) (argv d) (envp d) (flags d) (parent_signal d) s
        (childpid d) (fun_ d) (error d).

Definition with_childpid (d : ExecTrampolineData) (p : Z) :=
  mkETD (path d) (argv d) (envp d) (flags d) (parent_signal d) (sigign d)
        p (fun_ d) (error d).

Definition with_fun (d : ExecTrampolineData) (f : option string) :=
  mkETD (path d) (argv d) (envp d) (flags d) (parent_signal d) (sigign d)
        (childpid d) f (error d).

Definition with_error (d : ExecTrampolineData) (e : Z) :=
  mkETD (path d) (argv d) (envp d) (flags d) (parent_signal d) (sigign d)
        (childpid d) (fun_ d) e.

(** The memory both processes see ([CLONE_VM]): the descriptor and
    [errno]. *)
Record Mem : Type := mkMem {
  data : ExecTrampolineData;
  errno : Z
}.

(** ** System calls and their outcomes *)

Inductive ExecVariant : Type := Execvpe | Execve | Execvp | Execv.

Inductive Syscall : Type :=
| sys_setsid
| sys_prctl_set_pdeathsig (sig : Z)
| sys_clone
| sys_signal_ign (signum : Z)
| sys_getpid
| sys_exec (v : ExecVariant)
| sys_raise (sig : Z).

(** A call the process makes, the [errno] it fails with (if it fails) and
    the descriptor as it is when the call is made; [InChild] wraps what a
    process created by [clone] does while its creator is suspended
    ([CLONE_VFORK]). *)
Inductive Event : Type :=
| Call (c : Syscall) (res : option Z) (d : ExecTrampolineData)
| InChild (e : Event).

(** What the kernel answers to one process.  [Some e] is failure with
    [errno = e]; for [o_exec], [None] is a replaced image.
    [o_search_errno] is the [errno] that the attempts of [execvp] and
    [execvpe] along [PATH] leave behind before the one that succeeds, if
    any of them failed. *)
Record SysOutcomes : Type := mkSys {
  o_pid : positive;
  o_setsid : option Z;
  o_prctl : Z -> option Z;
  o_signal : Z -> option Z;
  o_exec : ExecVariant -> option Z;
  o_search_errno : option Z
}.

(** A process and the outcome of its [clone] call: failure, or a child with
    its own answers. *)
Inductive ProcEnv : Type :=
| Proc (o : SysOutcomes) (c : CloneOutcome)
with CloneOutcome : Type :=
| CloneFails (e : Z)
| CloneOk (pid : positive) (child : ProcEnv).

Inductive Outcome : Type :=
| ImageReplaced
| Killed (sig : Z)
| Returned (v : Z).

Record Run : Type := mkRun {
  r_mem : Mem;
  r_outcome : Outcome;
  r_trace : list Event
}.

(** Where control goes after a step: on to the next one, to the [fail]
    label with the current value of the local [fun], or nowhere because the
    image was replaced. *)
Inductive Flow : Type :=
| Continue
| GotoFail (f : option string)
| Replaced.

Definition Step : Type := Mem -> Mem * list Event * Flow.

Definition seq_step (s1 s2 : Step) : Step :=
  fun m =>
    let '(m1, t1, f1) := s1 m in
    match f1 with
    | Continue => let '(m2, t2, f2) := s2 m1 in (m2, t1 ++ t2, f2)
    | _ => (m1, t1, f1)
    end.

Notation "s1 ;; s2" := (seq_step s1 s2) (at level 61, right associativity).

(** ** The trampoline *)

Section Trampoline.

(** [SIGKILL] and [SIGSTOP] of <signal.h>. *)
Variables SIGKILL SIGSTOP : Z.

Definition step_setsid (o : SysOutcomes) : Step :=
  fun m =>
    let d := data m in
    if has_flag (flags d) ETD_SETSID then
      let d := with_flags d (clear_flag (flags d) ETD_SETSID) in
      match o_setsid o with
      | Some e => (mkMem d e, [Call sys_setsid (Some e) d],
                   GotoFail (Some "setsid"))
      | None => (mkMem d (errno m), [Call sys_setsid None d], Continue)
      end
    else (m, [], Continue).

Definition step_pdeathsig (o : SysOutcomes) : Step :=
  fun m =>
    let d := data m in
    let parent_signal := parent_signal d in
    if parent_signal >=? 0 then
      let d := with_parent_signal d 0 in
      match o_prctl o parent_signal with
      | Some e =>
          (mkMem d e, [Call (sys_prctl_set_pdeathsig parent_signal) (Some e) d],
           GotoFail (Some "PR_SET_PDEATHSIG"))
      | None =>
          (mkMem d (errno m),
           [Call (sys_prctl_set_pdeathsig parent_signal) None d], Continue)
      end
    else (m, [], Continue).

(** [clone] runs the child on the shared memory until it is gone
    ([CLONE_VFORK | CLONE_VM]) and answers its pid, or fails with -1. *)
Definition step_doublefork (clone : Mem -> Z + positive * Run) : Step :=
  fun m =>
    let d := data m in
    if has_flag (flags d) ETD_DOUBLEFORK then
      let d := with_flags d (clear_flag (flags d) ETD_DOUBLEFORK) in
      let '(childprocess, res, m', tr) :=
        match clone (mkMem d (errno m)) with
        | inl e => (-1, Some e, mkMem d e, [])
        | inr (pid, r) => (Z.pos pid, None, r_mem r, map InChild (r_trace r))
        end in
      (m', Call sys_clone res d :: tr,
       GotoFail (if childprocess <? 0 then Some "clone(doublefork)" else None))
    else (m, [], Continue).

(** One pass through the body of the loop, entered with the given [sigign]
    and [signum]: [has] is the low bit, [signum] is incremented, and unless
    the pass ends at [continue] the call [signal(signum, SIG_IGN)] is made;
    the second component is the [errno] with which it jumps to [fail]. *)
Definition sigign_iteration (signal_o : Z -> option Z)
    (d : ExecTrampolineData) (sigign : N) (signum : Z)
  : list Event * option Z :=
  let has := (N.land sigign 1 =? 1)%N in
  let signum := signum + 1 in
  if negb has || (signum =? SIGKILL) || (signum =? SIGSTOP) then ([], None)
  else
    match signal_o signum with
    | Some e => ([Call (sys_signal_ign signum) (Some e) d], Some e)
    | None => ([Call (sys_signal_ign signum) None d], None)
    end.

(** The [do ... while (sigign)] loop, entered with [sigign] and [signum]:
    one pass through the body, then again on [sigign >> 1] as long as that is
    not zero.  Each pass drops a bit of the mask, which is why the loop
    ends. *)
Equations? sigign_loop (signal_o : Z -> option Z) (d : ExecTrampolineData)
    (sigign : N) (signum : Z) : list Event * option Z
  by wf (N.size_nat sigign) lt :=
  sigign_loop signal_o d sigign signum
    with N.eq_dec (N.shiftr sigign 1) 0 => {
    | left _ := sigign_iteration signal_o d sigign signum;
    | right _ :=
        match sigign_iteration signal_o d sigign signum with
        | (tr, Some e) => (tr, Some e)
        | (tr, None) =>
            let '(tr', r) :=
              sigign_loop signal_o d (N.shiftr sigign 1) (signum + 1) in
            (tr ++ tr', r)
        end }.
Proof.
  match goal with
  | H : N.div2 ?s <> 0%N |- _ => destruct s as [|[q|q|]]; cbn in *
  end; solve [ lia | congruence ].
Qed.

Definition step_sigign (o : SysOutcomes) : Step :=
  fun m =>
    let d := data m in
    let sigign := sigign d in
    if negb (sigign =? 0)%N then
      let d := with_sigign d 0 in
      match sigign_loop (o_signal o) d sigign 0 with
      | (tr, Some e) => (mkMem d e, tr, GotoFail (Some "signal"))
      | (tr, None) => (mkMem d (errno m), tr, Continue)
      end
    else (m, [], Continue).

Definition step_childpid (o : SysOutcomes) : Step :=
  fun m =>
    let d := data m in
    (mkMem (with_childpid d (Z.pos (o_pid o))) (errno m),
     [Call sys_getpid None d], Continue).

(** [errno] after an exec call that replaced the image: [execv] and
    [execve] leave it alone; [execvp] and [execvpe] may have failed in some
    directories of [PATH] first.  The memory is shared ([CLONE_VM]), so the
    creator of the process sees that value. *)
Definition errno_after_exec (o : SysOutcomes) (v : ExecVariant) (errno : Z)
  : Z :=
  match v, o_search_errno o with
  | Execvpe, Some e | Execvp, Some e => e
  | _, _ => errno
  end.

Definition exec_call (o : SysOutcomes) (v : ExecVariant) (name : string)
  : Step :=
  fun m =>
    match o_exec o v with
    | None => (mkMem (data m) (errno_after_exec o v (errno m)),
               [Call (sys_exec v) None (data m)], Replaced)
    | Some e => (mkMem (data m) e, [Call (sys_exec v) (Some e) (data m)],
                 GotoFail (Some name))
    end.

Definition step_exec (o : SysOutcomes) : Step :=
  fun m =>
    let d := data m in
    match envp d with
    | Some _ =>
        if has_flag (flags d) ETD_SEARCH_PATH
        then exec_call o Execvpe "execvpe" m
        else exec_call o Execve "execve" m
    | None =>
        if has_flag (flags d) ETD_SEARCH_PATH
        then exec_call o Execvp "execvp" m
        else exec_call o Execv "execv" m
    end.

(** [raise(sig)]: the one signal the trampoline raises cannot be caught,
    blocked or ignored, so the call does not return. *)
Definition raise_terminates (sig : Z) : bool := sig =? SIGKILL.

(** The [fail] label. *)
Definition fail (f : option string) (m : Mem) (tr : list Event) : Run :=
  let d := with_fun (data m) f in
  let d := with_error d (errno m) in
  mkRun (mkMem d (errno m))
        (if raise_terminates SIGKILL then Killed SIGKILL else Returned (-1))
        (tr ++ [Call (sys_raise SIGKILL) None d]).

Definition trampoline_body (o : SysOutcomes)
    (clone : Mem -> Z + positive * Run) (m : Mem) : Run :=
  let '(m', tr, flow) :=
    (step_setsid o ;; step_pdeathsig o ;; step_doublefork clone ;;
     step_sigign o ;; step_childpid o ;; step_exec o) m in
  match flow with
  | Replaced => mkRun m' ImageReplaced tr
  | GotoFail f => fail f m' tr
  | Continue => fail None m' tr
  end.

(** [exec_trampoline], run by the process [env] on the shared memory. *)
Fixpoint exec_trampoline (env : ProcEnv) (m : Mem) : Run :=
  match env with
  | Proc o c =>
      trampoline_body o
        (fun m' =>
           match c with
           | CloneFails e => inl e
           | CloneOk pid child => inr (pid, exec_trampoline child m')
           end) m
  end.

(** What the loop does to signal [n] when entered at [signum = k] with
    the mask [s]: the call is made with the disposition oracle's answer,
    for a set bit that is not one of the two signals left alone; a failing
    call is what the loop ends with. *)
Definition signal_event (o : Z -> option Z) (d : ExecTrampolineData)
    (s : N) (k : Z) (r : option Z) (ev : Event) : Prop :=
  exists n,
    ev = Call (sys_signal_ign n) (o n) d
    /\ k < n
    /\ N.testbit s (Z.to_N (n - k - 1)) = true
    /\ n <> SIGKILL /\ n <> SIGSTOP
    /\ (forall e, o n = Some e -> r = Some e).

(** Signal [n] may have its disposition changed under [mask]. *)
Definition mask_allows (mask : N) (n : Z) : Prop :=
  1 <= n /\ N.testbit mask (Z.to_N (n - 1)) = true
  /\ n <> SIGKILL /\ n <> SIGSTOP.

(** The [clone] call of a process, as [trampoline_body] sees it. *)
Definition run_clone (c : CloneOutcome) (m' : Mem) : Z + positive * Run :=
  match c with
  | CloneFails e => inl e
  | CloneOk pid child => inr (pid, exec_trampoline child m')
  end.

End Trampoline.

Scheme ProcEnv_mut := Induction for ProcEnv Sort Prop
  with CloneOutcome_mut := Induction for CloneOutcome Sort Prop.

(** ** The caller side *)

Inductive FormatArg : Type :=
| ArgStr (s : string)
| ArgInt (z : Z).

(** What the Python caller gets: a value, an exception raised with
    [PyErr_Format], or the exception the parsing of the arguments failed
    with. *)
Inductive PyResult : Type :=
| Return (v : PyObject)
| Raise (exc : PyExc) (format : string) (args : list FormatArg)
| Propagate (exc : PyExc).

(** The arguments as passed; [path], [args] and [env] are taken after
    marshalling to byte strings. *)
Record Kwargs : Type := mkKwargs {
  kw_path : string;
  kw_args : option (list string);
  kw_env : option (list string);
  kw_signal : option PyObject;
  kw_sibling : option PyObject;
  kw_search_path : option PyObject;
  kw_setsid : option PyObject;
  kw_doublefork : option PyObject;
  kw_sigign : option PyObject
}.

(** The local variables [PyArg_ParseTupleAndKeywords] fills in. *)
Record Parsed : Type := mkParsed {
  exec_path : string;
  exec_args : option (list string);
  exec_env : option (list string);
  exec_signal : Z;
  exec_sibling : bool;
  exec_search_path : bool;
  exec_setsid : bool;
  exec_doublefork : bool;
  exec_sigign : N
}.

(** What the kernel answers to the caller: [errno] on entry, the outcome of
    [clone], and the two [waitpid(childprocess, NULL, WNOHANG)] results. *)
Record CallerEnv : Type := mkCaller {
  c_errno : Z;
  c_clone : CloneOutcome;
  c_waitpid1 : Z;
  c_waitpid2 : Z
}.

(** The C string at the start of the buffer of a bytes object: the bytes
    up to the first NUL, that of the object itself or the one that follows
    its last byte. *)
Fixpoint PyBytes_AS_STRING (b : string) : string :=
  match b with
  | EmptyString => EmptyString
  | String c rest =>
      if Ascii.eqb c "000"%char then EmptyString
      else String c (PyBytes_AS_STRING rest)
  end.

(** The array of C strings for a list of bytes objects; [None] is the
    [NULL] it answers for a [NULL] list, with no exception set, and when
    [pymalloc] fails, with [MemoryError] set. *)
Definition bytes_list_to_cstring_array (pymalloc_ok : bool)
    (list_ : option (list string)) : option (list string) * PyErr :=
  match list_ with
  | None => (None, None)
  | Some l =>
      if pymalloc_ok then (Some (map PyBytes_AS_STRING l), None)
      else (None, Some PyExc_MemoryError)
  end.

Definition bool_false_converter (obj : option PyObject) : Converted bool :=
  match obj with
  | None | Some Py_None => Ok false
  | Some o =>
      let '(value, err) := PyObject_IsTrue o in
      if value <? 0 then Fail err else Ok (negb (value =? 0))
  end.

Definition bind_conv {A B : Type} (c : Converted A) (k : A -> Converted B)
  : Converted B :=
  match c with
  | Ok a => k a
  | Fail e => Fail e
  end.

Notation "x <- c ;;; k" := (bind_conv c (fun x => k))
  (at level 62, c at next level, right associativity).

Section Caller.

Variables _NSIG SIGKILL SIGSTOP : Z.

Definition cloneandexecve_parse (kw : Kwargs) : Converted Parsed :=
  signal <- signal_m1_convert _NSIG (kw_signal kw) ;;;
  sibling <- bool_false_converter (kw_sibling kw) ;;;
  search_path <- bool_false_converter (kw_search_path kw) ;;;
  setsid <- bool_false_converter (kw_setsid kw) ;;;
  doublefork <- bool_false_converter (kw_doublefork kw) ;;;
  sigign <- sigign_converter _NSIG (kw_sigign kw) ;;;
  Ok (mkParsed (kw_path kw) (kw_args kw) (kw_env kw) signal sibling
               search_path setsid doublefork sigign).

(** The descriptor made of the local variables.  [path], [argv] and
    [envp] hold pointers into the byte strings: what they denote are the C
    strings there.  The two arrays are taken as allocated. *)
Definition initial_descriptor (a : Parsed) : ExecTrampolineData :=
  let argv_list := fst (bytes_list_to_cstring_array true (exec_args a)) in
  let envp_list := fst (bytes_list_to_cstring_array true (exec_env a)) in
  let static_argv_list := [PyBytes_AS_STRING (exec_path a)] in
  mkETD (PyBytes_AS_STRING (exec_path a))
        (match argv_list with Some l => l | None => static_argv_list end)
        envp_list
        (N.lor (if exec_search_path a then N.shiftl 1 ETD_SEARCH_PATH else 0)
          (N.lor (if exec_setsid a then N.shiftl 1 ETD_SETSID else 0)
            (N.lor (if exec_doublefork a then N.shiftl 1 ETD_DOUBLEFORK else 0)
               0)))%N
        (exec_signal a)
        (exec_sigign a)
        (-1) None (-1).

(** The part of [cloneandexecve_impl] after argument parsing and the
    allocation of the two arrays; [sibling] only adds [CLONE_PARENT] to the
    flags of [clone], whose outcome is the oracle's in either case. *)
Definition cloneandexecve_spawn (a : Parsed) (ce : CallerEnv) : PyResult :=
  let trampoline_data := initial_descriptor a in
  match c_clone ce with
  | CloneFails code =>
      Raise PyExc_Exception "clone failed with errno=%d" [ArgInt code]
  | CloneOk pid child =>
      let childprocess := Z.pos pid in
      let r := exec_trampoline SIGKILL SIGSTOP child
                 (mkMem trampoline_data (c_errno ce)) in
      let trampoline_data := data (r_mem r) in
      let waitpid_result := b2z (c_waitpid1 ce >? 0) in
      let waitpid_result :=
        if (childpid trampoline_data >=? 0)
             && negb (childpid trampoline_data =? childprocess)
        then b2z (c_waitpid2 ce >? 0)
        else waitpid_result in
      match fun_ trampoline_data with
      | Some f =>
          Raise PyExc_OSError "clone successful, but %s failed with errno=%d"
                [ArgStr f; ArgInt (error trampoline_data)]
      | None =>
          if waitpid_result =? 0
          then Return (PyLong (childpid trampoline_data))
          else Return Py_None
      end
  end.

Definition cloneandexecve_impl (kw : Kwargs) (ce : CallerEnv) : PyResult :=
  match cloneandexecve_parse kw with
  | Fail e => Propagate (converter_failed e)
  | Ok a => cloneandexecve_spawn a ce
  end.

End Caller.

(** ** Reading traces *)

(** The call behind an event, whoever made it. *)
Fixpoint call_of (e : Event) : Syscall :=
  match e with
  | Call c _ _ => c
  | InChild e => call_of e
  end.

(** The calls the process itself makes, without those of its child. *)
Fixpoint own_calls (tr : list Event) : list Syscall :=
  match tr with
  | [] => []
  | Call c _ _ :: tr => c :: own_calls tr
  | InChild _ :: tr => own_calls tr
  end.

(** What the child does, seen from its creator's trace. *)
Fixpoint child_events (tr : list Event) : list Event :=
  match tr with
  | [] => []
  | Call _ _ _ :: tr => child_events tr
  | InChild e :: tr => e :: child_events tr
  end.

(** The position of a call in the order of steps of the trampoline. *)
Definition step_rank (c : Syscall) : nat :=
  match c with
  | sys_setsid => 1
  | sys_prctl_set_pdeathsig _ => 2
  | sys_clone => 3
  | sys_signal_ign _ => 4
  | sys_getpid => 5
  | sys_exec _ => 6
  | sys_raise _ => 7
  end.

(** The name under which a failing call is reported. *)
Definition step_name (c : Syscall) : string :=
  match c with
  | sys_setsid => "setsid"
  | sys_prctl_set_pdeathsig _ => "PR_SET_PDEATHSIG"
  | sys_clone => "clone(doublefork)"
  | sys_signal_ign _ => "signal"
  | sys_exec Execvpe => "execvpe"
  | sys_exec Execve => "execve"
  | sys_exec Execvp => "execvp"
  | sys_exec Execv => "execv"
  | sys_getpid => "getpid"
  | sys_raise _ => "raise"
  end.

(** The trigger field of a step is clear in the descriptor [d]. *)
Definition trigger_cleared (c : Syscall) (d : ExecTrampolineData) : Prop :=
  match c with
  | sys_setsid => has_flag (flags d) ETD_SETSID = false
  | sys_prctl_set_pdeathsig _ => parent_signal d = 0
  | sys_clone => has_flag (flags d) ETD_DOUBLEFORK = false
  | sys_signal_ign _ => sigign d = 0%N
  | _ => True
  end.

(** ** Platform constants used in the examples *)

(** Linux on x86-64 and AArch64. *)
Definition linux_NSIG : Z := 65.
Definition linux_SIGKILL : Z := 9.
Definition linux_SIGSTOP : Z := 19.
Definition ENOENT : Z := 2.
Definition EAGAIN : Z := 11.
Definition SIGTERM : Z := 15.

(** The mask with all 64 bits set. *)
Definition full_mask : N := Z.to_N UINT64_MAX.

(** [isinstance(raised, cls)] on the exception classes above: each one
    derives from [Exception] and from no other of them. *)
Definition is_instance (raised cls : PyExc) : bool :=
  PyExc_eqb raised cls || PyExc_eqb cls PyExc_Exception.

(** The second pass of a double fork makes none of the calls of the first
    three steps. *)
Definition second_pass_skips (tr : list Event) : Prop :=
  forall ev, In ev (child_events tr) -> (3 < step_rank (call_of ev))%nat.

(** ** Inputs used in the examples *)

(** A process for which every call succeeds. *)
Definition all_succeed (pid : positive) : SysOutcomes :=
  mkSys pid None (fun _ => None) (fun _ => None) (fun _ => None) None.

(** A process whose [exec] calls fail with [e]. *)
Definition exec_fails (pid : positive) (e : Z) : SysOutcomes :=
  mkSys pid None (fun _ => None) (fun _ => None) (fun _ => Some e) None.

(** A process that cannot create a child. *)
Definition leaf (o : SysOutcomes) : ProcEnv := Proc o (CloneFails EAGAIN).

(** A middle process 4242 and the process 4243 it creates. *)
Definition middle_and_child (child : SysOutcomes) : ProcEnv :=
  Proc (all_succeed 4242) (CloneOk 4243 (leaf child)).

Definition descriptor (f : N) (signal : Z) (mask : N) : ExecTrampolineData :=
  mkETD "/bin/true" ["/bin/true"] None f signal mask (-1) None (-1).

(** [path] alone, and [path] with [doublefork=True]. *)
Definition plain_args : Parsed :=
  mkParsed "/bin/true" None None (-1) false false false false 0.

Definition doublefork_args : Parsed :=
  mkParsed "/bin/true" None None (-1) false false false true 0.

Definition path_only : Kwargs :=
  mkKwargs "/bin/true" None None None None None None None None.

(** ** More ways to read a trace *)

(** The signal numbers of the [signal] calls the process itself makes, in
    the order of the calls. *)
Fixpoint signal_numbers (tr : list Event) : list Z :=
  match tr with
  | [] => []
  | Call (sys_signal_ign n) _ _ :: tr => n :: signal_numbers tr
  | _ :: tr => signal_numbers tr
  end.

(** The descriptor an event was recorded with, whoever made the call. *)
Fixpoint descriptor_of (e : Event) : ExecTrampolineData :=
  match e with
  | Call _ _ d => d
  | InChild e => descriptor_of e
  end.

(** The byte string holds a NUL byte. *)
Fixpoint has_nul (b : string) : bool :=
  match b with
  | EmptyString => false
  | String c rest => Ascii.eqb c "000"%char || has_nul rest
  end.

(** Two descriptors name the same program to execute, in the same way. *)
Definition same_program (d d' : ExecTrampolineData) : Prop :=
  path d' = path d /\ argv d' = argv d /\ envp d' = envp d
  /\ has_flag (flags d') ETD_SEARCH_PATH = has_flag (flags d) ETD_SEARCH_PATH.

(** The exec variant that goes with a descriptor: with or without an
    environment, with or without a search along [PATH]. *)
Definition exec_variant_of (d : ExecTrampolineData) : ExecVariant :=
  match envp d, has_flag (flags d) ETD_SEARCH_PATH with
  | Some _, true => Execvpe
  | Some _, false => Execve
  | None, true => Execvp
  | None, false => Execv
  end.

(** ** The setter and the getter of the parent-death signal *)

(** What the two functions hand back: a value, an exception built from
    [errno] by [PyErr_SetFromErrno], or the exception the parsing of the
    arguments failed with. *)
Inductive PdResult : Type :=
| PdReturn (v : PyObject)
| PdFromErrno (exc : PyExc) (errno : Z)
| PdPropagate (exc : PyExc).

Definition int_or_errno (success : bool) (value : Z) (errno : Z) : PdResult :=
  if success then PdReturn (PyLong value) else PdFromErrno PyExc_OSError errno.

(** [prctl(PR_GET_PDEATHSIG, &signal)] fails with an [errno], or stores a
    value in [signal] and answers 0. *)
Definition getpdeathsignal_impl (prctl_get : Z + Z) : PdResult :=
  let signal := -1 in
  let '(outcome, signal, errno) :=
    match prctl_get with
    | inl e => (-1, signal, e)
    | inr v => (0, v, 0)
    end in
  int_or_errno (outcome =? 0) signal errno.

Section Setter.

Variable _NSIG : Z.

(** The result, and the calls made. *)
Definition setpdeathsignal_impl (signal : option PyObject)
    (prctl_set : Z -> option Z) : PdResult * list Syscall :=
  match signal_0_convert _NSIG signal with
  | Fail e => (PdPropagate (converter_failed e), [])
  | Ok signal =>
      match prctl_set signal with
      | None => (PdReturn Py_None, [sys_prctl_set_pdeathsig signal])
      | Some e =>
          (PdFromErrno PyExc_OSError e, [sys_prctl_set_pdeathsig signal])
      end
  end.

End Setter.

(** ** Marshalling of [args] and [env] *)

(** An element of [args] or [env]: a bytes object, a [str] (its code
    points), or an object of another type, of which only the type name is
    looked at. *)
Inductive PyText : Type :=
| PyBytes (b : list Z)
| PyUnicode (s : list Z)
| PyNotText (tp_name : string).

(** The [args] or [env] argument: [None], an iterable, or an object
    [PySequence_List] refuses with [TypeError]. *)
Inductive PyTextSeq : Type :=
| SeqNone
| SeqOf (elems : list PyText)
| SeqNotIterable.

Section Marshalling.

(** [PyUnicode_AsEncodedString(value, "UTF-8", "strict")]. *)
Variable utf8_strict : list Z -> Converted (list Z).

Definition as_bytes (value : PyText) : Converted (list Z) :=
  match value with
  | PyBytes b => Ok b
  | PyUnicode s => utf8_strict s
  | PyNotText _ => Fail (Some PyExc_TypeError)
  end.

(** The [for] loop of [object_as_list_of_bytes] over the items of the
    list. *)
Fixpoint as_bytes_each (elems : list PyText) : Converted (list (list Z)) :=
  match elems with
  | [] => Ok []
  | elem :: rest =>
      match as_bytes elem with
      | Fail e => Fail e
      | Ok bytes =>
          match as_bytes_each rest with
          | Fail e => Fail e
          | Ok l => Ok (bytes :: l)
          end
      end
  end.

Definition object_as_list_of_bytes (obj : PyTextSeq)
  : Converted (list (list Z)) :=
  match obj with
  | SeqOf elems => as_bytes_each elems
  | _ => Fail (Some PyExc_TypeError)
  end.

(** [None] for the [NULL] list of a missing or [None] argument. *)
Definition bytes_list_converter (obj : option PyTextSeq)
  : Converted (option (list (list Z))) :=
  match obj with
  | None | Some SeqNone => Ok None
  | Some o =>
      match object_as_list_of_bytes o with
      | Ok l => Ok (Some l)
      | Fail e => Fail e
      end
  end.

End Marshalling.

(** UTF-8 with the [strict] error handler: a lone surrogate is refused
    with [UnicodeEncodeError], which is a [ValueError]. *)
Definition utf8_encode_char (c : Z) : option (list Z) :=
  if c <? 128 then Some [c]
  else if c <? 2048 then Some [192 + c / 64; 128 + c mod 64]
  else if (55296 <=? c) && (c <=? 57343) then None
  else if c <? 65536 then
    Some [224 + c / 4096; 128 + (c / 64) mod 64; 128 + c mod 64]
  else
    Some [240 + c / 262144; 128 + (c / 4096) mod 64; 128 + (c / 64) mod 64;
          128 + c mod 64].

Fixpoint utf8_encode (s : list Z) : Converted (list Z) :=
  match s with
  | [] => Ok []
  | c :: rest =>
      match utf8_encode_char c, utf8_encode rest with
      | Some b, Ok l => Ok (b ++ l)
      | None, _ => Fail (Some PyExc_ValueError)
      | _, Fail e => Fail e
      end
  end.

(** [args=["echo", b"a\0b"]] with [doublefork=True]. *)
Definition nul_args : Parsed :=
  mkParsed "/bin/echo" (Some ["echo"; String "a" (String "000" "b")]) None
           (-1) false false false true 0.

(** * Properties of the codec *)

Lemma PyExc_eqb_eq (a b : PyExc) : PyExc_eqb a b = true <-> a = b.
Proof.
  destruct a, b; simpl; split; intros H; try reflexivity; discriminate.
Qed.

Section CodecFacts.

Variable _NSIG : Z.

(** False, [None] and a missing argument give the empty mask. *)
Lemma sigign_converter_absent :
  sigign_converter _NSIG None = Ok 0%N
  /\ sigign_converter _NSIG (Some Py_None) = Ok 0%N
  /\ sigign_converter _NSIG (Some (PyBool false)) = Ok 0%N.
Proof. repeat split. Qed.

(** A truthy integer in the range of [unsigned long long] is the mask. *)
Lemma sigign_converter_int (o : PyObject) (z : Z) :
  int_value o = Some z -> 0 < z <= ULLONG_MAX ->
  sigign_converter _NSIG (Some o) = Ok (Z.to_N z).
Proof.
  intros Hv Hz. unfold ULLONG_MAX in Hz.
  assert (Hland : Z.land z UINT64_MAX = z).
  { unfold UINT64_MAX. change (2 ^ 64 - 1) with (Z.ones 64).
    rewrite Z.land_ones by lia. apply Z.mod_small. lia. }
  assert (Hrange : (z <? 0) || (ULLONG_MAX <? z) = false).
  { unfold ULLONG_MAX. apply orb_false_iff; split; apply Z.ltb_ge; lia. }
  destruct o; simpl in Hv; try discriminate; injection Hv as Hv.
  - destruct b; simpl in Hv; subst z; [ reflexivity | lia ].
  - subst z0. unfold sigign_converter, PyObject_IsTrue.
    destruct (Z.eqb_spec z 0) as [-> | _]; [ lia | ].
    change (1 <? 0) with false. change (1 =? 0) with false. cbv iota.
    unfold PyLong_AsUnsignedLongLong, int_value. rewrite Hrange.
    destruct (Z.eqb_spec z ULLONG_MAX); simpl; rewrite Hland, Z.eqb_refl;
      reflexivity.
Qed.

(** A sequence object is handed to the element loop. *)
Lemma sigign_converter_seq (x : PyObject) (l : list PyObject) :
  sigign_converter _NSIG (Some (PySeq (x :: l)))
  = sigign_converter_loop _NSIG (x :: l) None 0%N.
Proof. reflexivity. Qed.

Lemma pylong_to_signum_valid (n : Z) :
  0 <= n <= _NSIG -> n < 2 ^ 31 ->
  pylong_to_signum _NSIG (PyLong n) = Ok n.
Proof.
  intros Hn Hint. unfold pylong_to_signum, PyLong_AsLong, int_value.
  replace ((n <? LONG_MIN) || (LONG_MAX <? n)) with false
    by (unfold LONG_MIN, LONG_MAX; symmetry; apply orb_false_iff; split;
        apply Z.ltb_ge; lia).
  replace ((n <? 0) || (n >? _NSIG)) with false
    by (symmetry; apply orb_false_iff; split;
        [ apply Z.ltb_ge | rewrite Z.gtb_ltb; apply Z.ltb_ge ]; lia).
  f_equal. unfold to_int. rewrite Z.mod_small; lia.
Qed.

(** Every sequence of numbers in [0, _NSIG] is accepted, whichever
    signals it names. *)
Lemma sigign_converter_loop_accepts (l : list Z) (accu : N) :
  Forall (fun n => 0 <= n <= _NSIG) l -> _NSIG < 2 ^ 31 ->
  exists mask,
    sigign_converter_loop _NSIG (map PyLong l) None accu = Ok mask.
Proof.
  intros Hl Hsig. revert accu.
  induction Hl as [| n l Hn _ IH]; intros accu; simpl.
  - now exists accu.
  - rewrite pylong_to_signum_valid by lia. apply IH.
Qed.

Lemma sigign_converter_accepts (l : list Z) :
  Forall (fun n => 0 <= n <= _NSIG) l -> _NSIG < 2 ^ 31 ->
  exists mask, sigign_converter _NSIG (Some (PySeq (map PyLong l))) = Ok mask.
Proof.
  intros Hl Hsig. destruct l as [| n l].
  - now exists 0%N.
  - simpl map. rewrite sigign_converter_seq.
    apply (sigign_converter_loop_accepts (n :: l)); assumption.
Qed.

(** [1 << k] is the power of two as long as it fits in an [int]. *)
Lemma int_shl_small (k : Z) :
  0 <= k <= 30 -> int_to_uint64 (int_shl 1 k) = (2 ^ Z.to_N k)%N.
Proof.
  intros Hk. unfold int_to_uint64, int_shl, to_int.
  rewrite (Z.mod_small k 32) by lia. rewrite Z.shiftl_1_l.
  assert (0 < 2 ^ k <= 2 ^ 30)
    by (split; [ apply Z.pow_pos_nonneg | apply Z.pow_le_mono_r ]; lia).
  rewrite (Z.mod_small (2 ^ k + 2 ^ 31)) by lia.
  replace (2 ^ k + 2 ^ 31 - 2 ^ 31) with (2 ^ k) by lia.
  rewrite Z.mod_small by lia.
  rewrite <- (Z2N.id k) at 1 by lia.
  change 2 with (Z.of_N 2). rewrite <- N2Z.inj_pow. apply N2Z.id.
Qed.

(** Below 32 the encoding is exact: bit [n - 1] for each nonzero [n]. *)
Lemma sigign_converter_loop_low (l : list Z) (accu : N) :
  Forall (fun n => 0 <= n <= 31 /\ n <= _NSIG) l ->
  exists mask,
    sigign_converter_loop _NSIG (map PyLong l) None accu = Ok mask
    /\ forall i,
        N.testbit mask i
        = N.testbit accu i
          || existsb (fun n => (0 <? n) && (Z.to_N (n - 1) =? i)%N) l.
Proof.
  intros Hl. revert accu.
  induction Hl as [| n l [Hn Hs] _ IH]; intros accu; simpl.
  - exists accu. split; [ reflexivity | ].
    intros i. now rewrite orb_false_r.
  - rewrite pylong_to_signum_valid by lia.
    rewrite Z.gtb_ltb.
    destruct (Z.ltb_spec 0 n) as [Hpos | Hzero].
    + rewrite int_shl_small by lia.
      destruct (IH (N.lor accu (2 ^ Z.to_N (n - 1)))) as (mask & Hm & Hbits).
      exists mask. split; [ exact Hm | ].
      intros i. rewrite Hbits, N.lor_spec, N.pow2_bits_eqb. simpl.
      now rewrite orb_assoc.
    + destruct (IH accu) as (mask & Hm & Hbits).
      exists mask. split; [ exact Hm | ].
      intros i. now rewrite Hbits.
Qed.

Lemma sigign_converter_low (l : list Z) :
  Forall (fun n => 0 <= n <= 31 /\ n <= _NSIG) l ->
  exists mask,
    sigign_converter _NSIG (Some (PySeq (map PyLong l))) = Ok mask
    /\ forall i,
        N.testbit mask i
        = existsb (fun n => (0 <? n) && (Z.to_N (n - 1) =? i)%N) l.
Proof.
  intros Hl. destruct l as [| n l].
  - exists 0%N. split; [ reflexivity | ]. intros i. apply N.bits_0.
  - simpl map. rewrite sigign_converter_seq.
    destruct (sigign_converter_loop_low (n :: l) 0%N Hl) as (mask & Hm & Hb).
    exists mask. split; [ exact Hm | ].
    intros i. now rewrite Hb, N.bits_0.
Qed.

(** Whatever value an [int] expression has, converting it to [uint64_t]
    cannot set a bit from 32 up without setting bit 31 as well. *)
Lemma int_to_uint64_high_bits (v : Z) (i : N) :
  - 2 ^ 31 <= v < 2 ^ 31 -> (32 <= i < 64)%N ->
  N.testbit (int_to_uint64 v) i = true ->
  N.testbit (int_to_uint64 v) 31 = true.
Proof.
  intros Hv Hi. unfold int_to_uint64.
  assert (H64 : 0 <= v mod 2 ^ 64 < 2 ^ 64) by (apply Z.mod_pos_bound; lia).
  rewrite <- !Z.testbit_of_N, !Z2N.id by lia.
  rewrite !Z.mod_pow2_bits_low by lia.
  destruct (Z.neg_nonneg_cases v) as [Hneg | Hnn].
  - assert (Z.log2 (Z.pred (- v)) < 31).
    { destruct (Z.eq_dec v (-1)) as [-> | Hne]; [ simpl; lia | ].
      apply Z.log2_lt_pow2; lia. }
    rewrite !Z.bits_above_log2_neg by lia. reflexivity.
  - assert (Z.log2 v < 31).
    { destruct (Z.eq_dec v 0) as [-> | Hne]; [ simpl; lia | ].
      apply Z.log2_lt_pow2; lia. }
    intros Hbit. rewrite Z.bits_above_log2 in Hbit by lia. discriminate.
Qed.

(** The value [pylong_to_signum] hands back for an integer is the integer
    itself, and it lies in [0, _NSIG]. *)
Lemma pylong_to_signum_ok (n v : Z) :
  pylong_to_signum _NSIG (PyLong n) = Ok v ->
  0 <= n <= _NSIG /\ v = to_int n.
Proof.
  unfold pylong_to_signum, PyLong_AsLong, int_value.
  destruct ((n <? LONG_MIN) || (LONG_MAX <? n)).
  - simpl. destruct (-1 >? _NSIG); discriminate.
  - destruct (Z.ltb_spec n 0); simpl.
    + destruct (n =? -1); discriminate.
    + rewrite Z.gtb_ltb. destruct (Z.ltb_spec _NSIG n); simpl.
      * destruct (n =? -1); discriminate.
      * intros H1. injection H1 as <-. split; [ lia | reflexivity ].
Qed.

(** An integer outside [0, _NSIG] is refused: with [OverflowError], except
    for -1, which is refused with no exception set. *)
Lemma pylong_to_signum_refused (n : Z) :
  n < 0 \/ _NSIG < n ->
  pylong_to_signum _NSIG (PyLong n)
  = if n =? -1 then Fail None else Fail (Some PyExc_OverflowError).
Proof.
  intros Hn. unfold pylong_to_signum, PyLong_AsLong, int_value.
  destruct ((n <? LONG_MIN) || (LONG_MAX <? n)) eqn:Hlong.
  - assert (Hne : (n =? -1) = false).
    { apply Z.eqb_neq. intros ->. discriminate Hlong. }
    rewrite Hne. simpl. now destruct (-1 >? _NSIG).
  - replace ((n <? 0) || (n >? _NSIG)) with true.
    + now destruct (n =? -1).
    + symmetry. apply orb_true_iff. rewrite Z.gtb_ltb.
      destruct Hn; [ left | right ]; now apply Z.ltb_lt.
Qed.

Lemma lor_fits_uint64 (a b : N) :
  (a < 2 ^ 64 -> b < 2 ^ 64 -> N.lor a b < 2 ^ 64)%N.
Proof.
  intros Ha Hb.
  assert (H : (N.lor a b mod 2 ^ 64 = N.lor a b)%N).
  { rewrite <- !N.land_ones, N.land_lor_distr_l, !N.land_ones.
    now rewrite !N.mod_small. }
  rewrite <- H. apply N.mod_lt. discriminate.
Qed.

Lemma int_to_uint64_fits (v : Z) : (int_to_uint64 v < 2 ^ 64)%N.
Proof.
  unfold int_to_uint64.
  assert (0 <= v mod 2 ^ 64 < 2 ^ 64) by (apply Z.mod_pos_bound; lia).
  change (2 ^ 64)%N with (Z.to_N (2 ^ 64)). apply Z2N.inj_lt; lia.
Qed.

Lemma sigign_converter_loop_fits (elems : list PyObject) (stop : PyErr)
    (accu mask : N) :
  (accu < 2 ^ 64)%N ->
  sigign_converter_loop _NSIG elems stop accu = Ok mask ->
  (mask < 2 ^ 64)%N.
Proof.
  revert accu. induction elems as [| x l IH]; intros accu Ha; simpl.
  - destruct (PyErr_Occurred stop
              && negb (PyErr_ExceptionMatches stop PyExc_StopIteration));
      [ discriminate | ].
    intros H. now injection H as <-.
  - destruct (pylong_to_signum _NSIG x) as [signum | e]; [ | discriminate ].
    apply IH. destruct (signum >? 0); [ | exact Ha ].
    apply lor_fits_uint64; [ exact Ha | apply int_to_uint64_fits ].
Qed.

(** The way an iterator ends does not matter as long as it ends without an
    exception, or with [StopIteration]. *)
Lemma sigign_converter_loop_stop (elems : list PyObject) (accu : N) :
  sigign_converter_loop _NSIG elems (Some PyExc_StopIteration) accu
  = sigign_converter_loop _NSIG elems None accu.
Proof.
  revert accu. induction elems as [| x l IH]; intros accu; simpl;
    [ reflexivity | ].
  destruct (pylong_to_signum _NSIG x); [ apply IH | reflexivity ].
Qed.

(** The first element that is refused ends the loop with its error. *)
Lemma sigign_converter_loop_refused (pre : list Z) (bad : PyObject)
    (rest : list PyObject) (stop e : PyErr) (accu : N) :
  Forall (fun n => 0 <= n <= _NSIG /\ n < 2 ^ 31) pre ->
  pylong_to_signum _NSIG bad = Fail e ->
  sigign_converter_loop _NSIG (map PyLong pre ++ bad :: rest) stop accu
  = Fail e.
Proof.
  intros Hpre Hbad. revert accu.
  induction Hpre as [| n l [Hn Hint] _ IH]; intros accu; simpl.
  - now rewrite Hbad.
  - rewrite pylong_to_signum_valid by assumption. apply IH.
Qed.

(** An exception raised by the iterator after valid elements is the
    result. *)
Lemma sigign_converter_loop_raises (l : list Z) (exc : PyExc) (accu : N) :
  Forall (fun n => 0 <= n <= _NSIG /\ n < 2 ^ 31) l ->
  exc <> PyExc_StopIteration ->
  sigign_converter_loop _NSIG (map PyLong l) (Some exc) accu = Fail (Some exc).
Proof.
  intros Hl Hexc. revert accu.
  induction Hl as [| n l [Hn Hint] _ IH]; intros accu; simpl.
  - destruct (PyExc_eqb exc PyExc_StopIteration) eqn:Heq; [ | reflexivity ].
    apply PyExc_eqb_eq in Heq. contradiction.
  - rewrite pylong_to_signum_valid by assumption. apply IH.
Qed.

(** Whatever object it is given, a value [pylong_to_signum] hands back lies
    in [0, _NSIG]. *)
Lemma pylong_to_signum_in_range (o : PyObject) (v : Z) :
  _NSIG < 2 ^ 31 ->
  pylong_to_signum _NSIG o = Ok v -> 0 <= v <= _NSIG.
Proof.
  intros Hsig. unfold pylong_to_signum, PyLong_AsLong.
  destruct (int_value o) as [n |].
  - destruct ((n <? LONG_MIN) || (LONG_MAX <? n)).
    + simpl. destruct (-1 >? _NSIG); discriminate.
    + destruct (Z.ltb_spec n 0); simpl.
      * destruct (n =? -1); discriminate.
      * rewrite Z.gtb_ltb. destruct (Z.ltb_spec _NSIG n); simpl.
        -- destruct (n =? -1); discriminate.
        -- intros H1. injection H1 as <-. unfold to_int.
           rewrite Z.mod_small; lia.
  - simpl. destruct (-1 >? _NSIG); discriminate.
Qed.

End CodecFacts.
(** * Properties of the trampoline *)

Lemma has_flag_testbit (f b : N) : has_flag f b = N.testbit f b.
Proof.
  unfold has_flag. rewrite N.shiftl_1_l.
  destruct (N.testbit f b) eqn:Hb.
  - apply negb_true_iff, N.eqb_neq. intros H0.
    assert (Hc : N.testbit (N.land f (2 ^ b)) b = true)
      by (rewrite N.land_spec, Hb, N.pow2_bits_true; reflexivity).
    rewrite H0, N.bits_0 in Hc. discriminate.
  - apply negb_false_iff, N.eqb_eq, N.bits_inj. intros n.
    rewrite N.land_spec, N.pow2_bits_eqb, N.bits_0.
    destruct (N.eqb_spec b n) as [<- | _].
    + now rewrite Hb.
    + apply andb_false_r.
Qed.

Lemma has_flag_clear_flag (f b c : N) :
  has_flag (clear_flag f b) c = has_flag f c && negb (b =? c)%N.
Proof.
  rewrite !has_flag_testbit. unfold clear_flag.
  now rewrite N.shiftl_1_l, N.ldiff_spec, N.pow2_bits_eqb.
Qed.

Lemma own_calls_app (a b : list Event) :
  own_calls (a ++ b) = own_calls a ++ own_calls b.
Proof.
  induction a as [| [c res d | e] a IH]; simpl; [ reflexivity | | exact IH ].
  now rewrite IH.
Qed.

Lemma own_calls_child (l : list Event) : own_calls (map InChild l) = [].
Proof. induction l as [| e l IH]; simpl; [ reflexivity | exact IH ]. Qed.

Lemma child_events_app (a b : list Event) :
  child_events (a ++ b) = child_events a ++ child_events b.
Proof.
  induction a as [| [c res d | e] a IH]; simpl; [ reflexivity | exact IH | ].
  now rewrite IH.
Qed.

Lemma child_events_child (l : list Event) : child_events (map InChild l) = l.
Proof. induction l as [| e l IH]; simpl; [ reflexivity | now rewrite IH ]. Qed.

(** A run of equal ranks in front of a sorted list of larger ones. *)
Lemma sorted_const_app (k : nat) (l rest : list nat) :
  Forall (eq k) l -> Forall (le k) rest -> StronglySorted le rest ->
  StronglySorted le (l ++ rest).
Proof.
  intros Hl Hrest Hs.
  induction Hl as [| a l <- Hall IH]; simpl; [ exact Hs | ].
  constructor; [ exact IH | ].
  apply Forall_app. split; [ | exact Hrest ].
  eapply Forall_impl; [ | exact Hall ].
  intros b <-. apply le_n.
Qed.

Section TrampolineFacts.

Variables SIGKILL SIGSTOP : Z.

Lemma sigign_iteration_cases (o : Z -> option Z) (d : ExecTrampolineData)
    (s : N) (k : Z) :
  sigign_iteration SIGKILL SIGSTOP o d s k = ([], None)
  \/ (N.testbit s 0 = true /\ k + 1 <> SIGKILL /\ k + 1 <> SIGSTOP
      /\ sigign_iteration SIGKILL SIGSTOP o d s k
         = ([Call (sys_signal_ign (k + 1)) (o (k + 1)) d], o (k + 1))).
Proof.
  unfold sigign_iteration.
  assert (Hbit : (N.land s 1 =? 1)%N = N.testbit s 0)
    by (destruct s as [| [p | p |]]; reflexivity).
  rewrite Hbit.
  destruct (N.testbit s 0); simpl; [ | now left ].
  destruct (Z.eqb_spec (k + 1) SIGKILL); simpl; [ now left | ].
  destruct (Z.eqb_spec (k + 1) SIGSTOP); simpl; [ now left | ].
  right. repeat split; try assumption.
  destruct (o (k + 1)); reflexivity.
Qed.

Lemma signal_event_shift (o : Z -> option Z) (d : ExecTrampolineData)
    (s : N) (k : Z) (r : option Z) (ev : Event) :
  signal_event SIGKILL SIGSTOP o d (N.shiftr s 1) (k + 1) r ev ->
  signal_event SIGKILL SIGSTOP o d s k r ev.
Proof.
  intros (n & Hev & Hk & Hbit & Hkill & Hstop & Hres).
  exists n. repeat split; try assumption; try lia.
  rewrite N.shiftr_spec in Hbit by apply N.le_0_l.
  replace (Z.to_N (n - k - 1)) with (Z.to_N (n - (k + 1) - 1) + 1)%N by lia.
  exact Hbit.
Qed.

Lemma sigign_loop_events (o : Z -> option Z) (d : ExecTrampolineData)
    (s : N) (k : Z) :
  Forall (signal_event SIGKILL SIGSTOP o d s k
            (snd (sigign_loop SIGKILL SIGSTOP o d s k)))
         (fst (sigign_loop SIGKILL SIGSTOP o d s k)).
Proof.
  funelim (sigign_loop SIGKILL SIGSTOP o d s k); clear Heqcall Heq.
  - destruct (sigign_iteration_cases signal_o d sigign0 signum)
      as [-> | (Hbit & Hkill & Hstop & ->)]; simpl; constructor.
    + exists (signum + 1). repeat split; try assumption; try lia.
      * now replace (signum + 1 - signum - 1) with 0 by lia.
      * intros e' He'. exact He'.
    + constructor.
  - specialize (H [] None).
    destruct (sigign_loop SIGKILL SIGSTOP signal_o d (N.shiftr sigign0 1)
                (signum + 1)) as [tr' r] eqn:Hrec.
    simpl in H.
    assert (Hrest : Forall (signal_event SIGKILL SIGSTOP signal_o d sigign0
                              signum r) tr').
    { eapply Forall_impl; [ | exact H ].
      intros ev. apply signal_event_shift. }
    destruct (sigign_iteration_cases signal_o d sigign0 signum)
      as [-> | (Hbit & Hkill & Hstop & ->)]; simpl.
    + exact Hrest.
    + destruct (signal_o (signum + 1)) as [e |] eqn:Ho; simpl.
      * constructor; [ | constructor ].
        exists (signum + 1). rewrite Ho.
        repeat split; try assumption; try lia.
        -- now replace (signum + 1 - signum - 1) with 0 by lia.
        -- intros e' He'. exact He'.
      * constructor; [ | exact Hrest ].
        exists (signum + 1). rewrite Ho.
        repeat split; try assumption; try lia.
        -- now replace (signum + 1 - signum - 1) with 0 by lia.
        -- discriminate.
Qed.

(** Case analysis along the control flow of [trampoline_body]. *)
Ltac split_flow :=
  repeat (cbn [data errno]; match goal with
    | |- context [-1 <? 0] => change (-1 <? 0) with true
    | |- context [Z.pos ?p <? 0] => change (Z.pos p <? 0) with false
    | |- context [sigign_loop ?k ?s ?o ?d ?m ?n] =>
        let tr := fresh "tr" in
        let r := fresh "r" in
        let Hev := fresh "Hev" in
        pose proof (sigign_loop_events o d m n) as Hev;
        destruct (sigign_loop k s o d m n) as [tr r]; cbn [fst snd] in Hev
    | |- context [match ?x with _ => _ end] =>
        lazymatch x with
        | context [match _ with _ => _ end] => fail
        | _ => destruct x eqn:?
        end
    end); cbn [data errno].

(** Projections of an updated descriptor. *)
Ltac fields :=
  cbn [path argv envp flags parent_signal sigign childpid fun_ error
       with_flags with_parent_signal with_sigign with_childpid with_fun
       with_error data errno].

Ltac fields_in H :=
  cbn [path argv envp flags parent_signal sigign childpid fun_ error
       with_flags with_parent_signal with_sigign with_childpid with_fun
       with_error data errno] in H.

Ltac unfold_body :=
  unfold trampoline_body, seq_step, step_setsid, step_pdeathsig,
    step_doublefork, step_sigign, step_childpid, step_exec, exec_call, fail,
    raise_terminates;
  rewrite ?Z.eqb_refl.

Lemma not_in_child (c : Syscall) (res : option Z) (d : ExecTrampolineData)
    (l : list Event) :
  ~ In (Call c res d) (map InChild l).
Proof.
  intros H. apply in_map_iff in H. destruct H as (x & Hx & _). discriminate.
Qed.

Lemma trampoline_body_outcome (o : SysOutcomes)
    (clone : Mem -> Z + positive * Run) (m : Mem) :
  r_outcome (trampoline_body SIGKILL SIGSTOP o clone m) = ImageReplaced
  \/ r_outcome (trampoline_body SIGKILL SIGSTOP o clone m) = Killed SIGKILL.
Proof.
  unfold_body. split_flow; simpl; auto.
Qed.

(** Membership of an own call in a trace assembled by the steps. *)
Ltac split_in H :=
  simpl in H;
  repeat first
    [ rewrite in_app_iff in H
    | match type of H with
      | _ \/ _ => destruct H as [H | H]
      | False => contradiction
      | In _ (map InChild _) => exfalso; exact (not_in_child _ _ _ _ H)
      | In _ (_ :: _) => simpl in H
      | In _ [] => contradiction
      | _ = _ =>
          first [ discriminate H | injection H as ? ? ?; subst | subst ]
      end ].

(** An own call found in the part of the trace the loop produced. *)
Ltac in_loop H :=
  match goal with
  | Hev : Forall _ ?tr |- _ =>
      match type of H with
      | In _ tr =>
          let n := fresh "n" in
          let Heq := fresh "Heq" in
          let Hres := fresh "Hres" in
          let Hlt := fresh "Hlt" in
          let Hbit := fresh "Hbit" in
          let Hkill := fresh "Hkill" in
          let Hstop := fresh "Hstop" in
          rewrite Forall_forall in Hev; apply Hev in H;
          destruct H as (n & Heq & Hlt & Hbit & Hkill & Hstop & Hres);
          first [ injection Heq as ? ? ?; subst | subst ]
      end
  end.

Lemma trampoline_body_failure (o : SysOutcomes)
    (clone : Mem -> Z + positive * Run) (m : Mem)
    (c : Syscall) (e : Z) (d : ExecTrampolineData) :
  let r := trampoline_body SIGKILL SIGSTOP o clone m in
  In (Call c (Some e) d) (r_trace r) ->
  r_outcome r = Killed SIGKILL
  /\ fun_ (data (r_mem r)) = Some (step_name c)
  /\ error (data (r_mem r)) = e
  /\ exists tr,
      r_trace r = tr ++ [Call (sys_raise SIGKILL) None (data (r_mem r))].
Proof.
  unfold_body.
  split_flow; cbn [r_outcome r_mem r_trace data errno]; intros Hin;
    split_in Hin; try in_loop Hin;
    try match goal with
      | Hres : forall e, ?x = Some e -> _, Hx : Some _ = ?x |- _ =>
          specialize (Hres _ (eq_sym Hx)); first
            [ discriminate Hres | injection Hres as -> ]
      end;
    (split; [ reflexivity | split; [ reflexivity | split;
       [ reflexivity | eexists; reflexivity ] ] ]).
Qed.

Lemma trampoline_body_cleared (o : SysOutcomes)
    (clone : Mem -> Z + positive * Run) (m : Mem)
    (c : Syscall) (res : option Z) (d : ExecTrampolineData) :
  In (Call c res d) (r_trace (trampoline_body SIGKILL SIGSTOP o clone m)) ->
  trigger_cleared c d.
Proof.
  unfold_body.
  split_flow; cbn [r_outcome r_mem r_trace data errno]; intros Hin;
    split_in Hin; try in_loop Hin; cbn [trigger_cleared]; fields;
    solve [ exact I | reflexivity
          | rewrite has_flag_clear_flag, N.eqb_refl; apply andb_false_r ].
Qed.

Lemma loop_ranks (o : Z -> option Z) (d : ExecTrampolineData) (s : N)
    (k : Z) (r : option Z) (tr : list Event) :
  Forall (signal_event SIGKILL SIGSTOP o d s k r) tr ->
  Forall (eq 4%nat) (map step_rank (own_calls tr))
  /\ child_events tr = [].
Proof.
  induction 1 as [| ev tr (n & -> & _) _ [IH1 IH2]]; simpl.
  - split; [ constructor | reflexivity ].
  - split; [ constructor; [ reflexivity | exact IH1 ] | exact IH2 ].
Qed.

Ltac sorted_ranks :=
  repeat first
    [ apply SSorted_nil
    | apply Forall_nil
    | apply SSorted_cons
    | apply Forall_cons; [ cbn; lia | ]
    | apply sorted_const_app with (k := 4%nat); [ assumption | | ]
    | apply Forall_app; split;
      [ eapply Forall_impl; [ | eassumption ]; cbn; intros; lia | ] ].

Lemma trampoline_body_order (o : SysOutcomes)
    (clone : Mem -> Z + positive * Run) (m : Mem) :
  StronglySorted le
    (map step_rank
         (own_calls (r_trace (trampoline_body SIGKILL SIGSTOP o clone m)))).
Proof.
  unfold_body.
  split_flow; cbn [r_outcome r_mem r_trace data errno];
    try match goal with
      | Hev : Forall _ ?tr |- _ =>
          apply loop_ranks in Hev; destruct Hev as [Hev _]
      end;
    rewrite ?own_calls_app, ?own_calls_child, ?map_app, <- ?app_assoc;
    cbn [own_calls map step_rank app];
    rewrite ?own_calls_child; cbn [map app];
    sorted_ranks.
Qed.

Lemma seq_step_assoc (s1 s2 s3 : Step) (m : Mem) :
  (s1 ;; s2 ;; s3) m = ((s1 ;; s2) ;; s3) m.
Proof.
  unfold seq_step.
  destruct (s1 m) as [[m1 t1] [| f |]]; try reflexivity.
  destruct (s2 m1) as [[m2 t2] [| f |]]; try reflexivity.
  destruct (s3 m2) as [[m3 t3] f3]. now rewrite app_assoc.
Qed.

(** What the first two steps leave behind when both pass. *)
Lemma first_steps_pass (o : SysOutcomes) (m m1 : Mem) (tr1 : list Event) :
  (step_setsid o ;; step_pdeathsig o) m = (m1, tr1, Continue) ->
  has_flag (flags (data m1)) ETD_SETSID = false
  /\ has_flag (flags (data m1)) ETD_DOUBLEFORK
     = has_flag (flags (data m)) ETD_DOUBLEFORK
  /\ has_flag (flags (data m1)) ETD_SEARCH_PATH
     = has_flag (flags (data m)) ETD_SEARCH_PATH
  /\ sigign (data m1) = sigign (data m)
  /\ parent_signal (data m1)
     = (if parent_signal (data m) >=? 0 then 0 else parent_signal (data m)).
Proof.
  unfold seq_step, step_setsid, step_pdeathsig.
  destruct (has_flag (flags (data m)) ETD_SETSID) eqn:Hs;
    [ destruct (o_setsid o); [ discriminate | ] | ]; fields;
    (destruct (parent_signal (data m) >=? 0);
     [ destruct (o_prctl o _); [ discriminate | ] | ]);
    intros H; injection H as <- _; fields;
    rewrite ?has_flag_clear_flag; cbn [N.eqb ETD_SETSID ETD_DOUBLEFORK
      ETD_SEARCH_PATH Pos.eqb negb]; rewrite ?andb_true_r, ?andb_false_r;
    auto.
Qed.

(** The middle process of a double fork: the child starts on the
    descriptor [d], and whatever it reports is overwritten. *)
Lemma trampoline_body_doublefork (o : SysOutcomes)
    (clone : Mem -> Z + positive * Run) (m m1 : Mem) (tr1 : list Event) :
  (step_setsid o ;; step_pdeathsig o) m = (m1, tr1, Continue) ->
  has_flag (flags (data m)) ETD_DOUBLEFORK = true ->
  let d := with_flags (data m1) (clear_flag (flags (data m1)) ETD_DOUBLEFORK) in
  trampoline_body SIGKILL SIGSTOP o clone m
  = match clone (mkMem d (errno m1)) with
    | inl e =>
        let df := with_error (with_fun d (Some "clone(doublefork)")) e in
        mkRun (mkMem df e) (Killed SIGKILL)
              (tr1 ++ [Call sys_clone (Some e) d;
                       Call (sys_raise SIGKILL) None df])
    | inr (pid, rc) =>
        let df := with_error (with_fun (data (r_mem rc)) None)
                             (errno (r_mem rc)) in
        mkRun (mkMem df (errno (r_mem rc))) (Killed SIGKILL)
              (tr1 ++ Call sys_clone None d :: map InChild (r_trace rc)
                   ++ [Call (sys_raise SIGKILL) None df])
    end.
Proof.
  intros Hpass Hdf d.
  destruct (first_steps_pass _ _ _ _ Hpass) as (_ & Hdf1 & _).
  rewrite Hdf in Hdf1.
  unfold trampoline_body. rewrite seq_step_assoc.
  unfold seq_step at 1. rewrite Hpass.
  unfold seq_step at 1. unfold step_doublefork at 1. rewrite Hdf1.
  fold d. unfold fail, raise_terminates. rewrite Z.eqb_refl.
  destruct (clone (mkMem d (errno m1))) as [e | [pid rc]]; cbn -[d].
  - rewrite <- app_assoc. reflexivity.
  - rewrite <- app_assoc. reflexivity.
Qed.

(** A pass that starts with the session and double-fork flags clear makes
    neither call, creates no process, and calls [prctl] only with the
    value it finds in the descriptor. *)
Lemma trampoline_body_second_pass (o : SysOutcomes)
    (clone : Mem -> Z + positive * Run) (m : Mem) (ev : Event) :
  has_flag (flags (data m)) ETD_SETSID = false ->
  has_flag (flags (data m)) ETD_DOUBLEFORK = false ->
  In ev (r_trace (trampoline_body SIGKILL SIGSTOP o clone m)) ->
  exists c res d,
    ev = Call c res d /\ c <> sys_setsid /\ c <> sys_clone
    /\ (forall s, c = sys_prctl_set_pdeathsig s ->
                  s = parent_signal (data m) /\ 0 <= s).
Proof.
  intros Hs Hd. unfold_body. rewrite Hs.
  split_flow; cbn [r_outcome r_mem r_trace data errno]; intros Hin;
    try (match goal with
         | H : has_flag _ _ = true |- _ => fields_in H; congruence
         end);
    split_in Hin; try in_loop Hin;
    do 3 eexists; (split; [ reflexivity | ]);
    (split; [ discriminate | ]); (split; [ discriminate | ]);
    intros s Heq; try discriminate Heq; injection Heq as Heq; subst s; fields;
    (split; [ reflexivity | ]);
    match goal with
    | H : (_ >=? 0) = true |- _ =>
        fields_in H; apply Z.geb_le in H; exact H
    end.
Qed.

Lemma exec_trampoline_eq (o : SysOutcomes) (c : CloneOutcome) (m : Mem) :
  exec_trampoline SIGKILL SIGSTOP (Proc o c) m
  = trampoline_body SIGKILL SIGSTOP o (run_clone SIGKILL SIGSTOP c) m.
Proof. reflexivity. Qed.

Lemma trampoline_body_signals (o : SysOutcomes)
    (clone : Mem -> Z + positive * Run) (m : Mem) :
  (forall m' pid rc ev n,
      clone m' = inr (pid, rc) -> sigign (data m') = sigign (data m) ->
      In ev (r_trace rc) -> call_of ev = sys_signal_ign n ->
      mask_allows SIGKILL SIGSTOP (sigign (data m)) n) ->
  forall ev n,
    In ev (r_trace (trampoline_body SIGKILL SIGSTOP o clone m)) ->
    call_of ev = sys_signal_ign n ->
    mask_allows SIGKILL SIGSTOP (sigign (data m)) n.
Proof.
  intros Hclone ev n. unfold_body.
  split_flow; cbn [r_outcome r_mem r_trace data errno]; intros Hin Hcall;
    split_in Hin; try in_loop Hin; try discriminate Hcall.
  all: try (apply in_map_iff in Hin; destruct Hin as (ev' & <- & Hin');
            match goal with
            | Hc : _ = inr _ |- _ =>
                exact (Hclone _ _ _ _ _ Hc eq_refl Hin' Hcall)
            end).
  all: injection Hcall as <-; fields_in Hbit;
    replace (n0 - 0 - 1) with (n0 - 1) in Hbit by lia;
    repeat split; solve [ assumption | lia ].
Qed.

Lemma exec_trampoline_signals (env : ProcEnv) :
  forall m ev n,
    In ev (r_trace (exec_trampoline SIGKILL SIGSTOP env m)) ->
    call_of ev = sys_signal_ign n ->
    mask_allows SIGKILL SIGSTOP (sigign (data m)) n.
Proof.
  induction env using ProcEnv_mut with
    (P0 := fun c =>
       match c with
       | CloneFails _ => True
       | CloneOk _ child =>
           forall m ev n,
             In ev (r_trace (exec_trampoline SIGKILL SIGSTOP child m)) ->
             call_of ev = sys_signal_ign n ->
             mask_allows SIGKILL SIGSTOP (sigign (data m)) n
       end); [ | exact I | exact IHenv ].
  intros m ev n. rewrite exec_trampoline_eq.
  apply trampoline_body_signals.
  intros m' pid rc ev' n' Hc Hmask Hin Hcall.
  destruct c as [e | pid' child]; [ discriminate | ].
  injection Hc as <- <-. rewrite <- Hmask. eapply IHenv; eassumption.
Qed.

Lemma trampoline_body_never_returns (o : SysOutcomes)
    (clone : Mem -> Z + positive * Run) (m : Mem) (v : Z) :
  r_outcome (trampoline_body SIGKILL SIGSTOP o clone m) <> Returned v.
Proof.
  destruct (trampoline_body_outcome o clone m) as [-> | ->]; discriminate.
Qed.

(** The parent-death-signal step on its own. *)
Lemma trampoline_body_pdeathsig (o : SysOutcomes)
    (clone : Mem -> Z + positive * Run) (m : Mem) :
  has_flag (flags (data m)) ETD_SETSID = false \/ o_setsid o = None ->
  let s := parent_signal (data m) in
  let r := trampoline_body SIGKILL SIGSTOP o clone m in
  (0 <= s ->
   exists d,
     In (Call (sys_prctl_set_pdeathsig s) (o_prctl o s) d) (r_trace r)
     /\ parent_signal d = 0)
  /\ (s < 0 ->
      forall s' res d,
        ~ In (Call (sys_prctl_set_pdeathsig s') res d) (r_trace r)).
Proof.
  intros Hsetsid s r. subst s r. split.
  - intros Hs. apply Z.geb_le in Hs. unfold_body.
    split_flow; cbn [r_outcome r_mem r_trace data errno];
      try (destruct Hsetsid; congruence);
      try match goal with
        | H : (_ >=? 0) = false |- _ => fields_in H; congruence
        end;
      repeat match goal with
        | H : o_prctl _ _ = _ |- _ => fields_in H; rewrite H; clear H
        end;
      (eexists; split;
        [ rewrite ?in_app_iff; cbn [In]; eauto 12 | reflexivity ]).
  - intros Hs. assert (Hge : (parent_signal (data m) >=? 0) = false)
      by (rewrite Z.geb_leb; apply Z.leb_gt; exact Hs).
    intros s' res d. unfold_body.
    split_flow; cbn [r_outcome r_mem r_trace data errno]; intros Hin;
      try match goal with
        | H : (_ >=? 0) = true |- _ => fields_in H; congruence
        end;
      split_in Hin; try in_loop Hin; try discriminate.
Qed.

(** Once taken, the parent-death-signal step leaves 0 in the field. *)
Lemma trampoline_body_parent_signal (o : SysOutcomes)
    (clone : Mem -> Z + positive * Run) (m : Mem) :
  (forall m' pid rc,
      clone m' = inr (pid, rc) -> parent_signal (data m') = 0 ->
      parent_signal (data (r_mem rc)) = 0) ->
  parent_signal (data m) = 0
  \/ (0 <= parent_signal (data m)
      /\ (has_flag (flags (data m)) ETD_SETSID = false
          \/ o_setsid o = None)) ->
  parent_signal (data (r_mem (trampoline_body SIGKILL SIGSTOP o clone m))) = 0.
Proof.
  intros Hclone Hm. unfold_body.
  split_flow; cbn [r_outcome r_mem r_trace data errno]; fields;
    try reflexivity;
    try match goal with
      | Hc : _ = inr _ |- _ => exact (Hclone _ _ _ Hc eq_refl)
      end;
    try match goal with
      | H : (_ >=? 0) = false |- _ =>
          fields_in H; rewrite Z.geb_leb in H; apply Z.leb_gt in H
      end;
    destruct Hm as [Hm | [Hm [Hs | Hs]]]; solve [ lia | congruence ].
Qed.

Lemma exec_trampoline_parent_signal (env : ProcEnv) :
  forall m,
    parent_signal (data m) = 0 ->
    parent_signal (data (r_mem (exec_trampoline SIGKILL SIGSTOP env m))) = 0.
Proof.
  induction env using ProcEnv_mut with
    (P0 := fun c =>
       match c with
       | CloneFails _ => True
       | CloneOk _ child =>
           forall m,
             parent_signal (data m) = 0 ->
             parent_signal
               (data (r_mem (exec_trampoline SIGKILL SIGSTOP child m))) = 0
       end); [ | exact I | exact IHenv ].
  intros m Hm. rewrite exec_trampoline_eq.
  apply trampoline_body_parent_signal; [ | now left ].
  intros m' pid rc Hc Hm'.
  destruct c as [e | pid' child]; [ discriminate | ].
  injection Hc as <- <-. now apply IHenv.
Qed.

(** The events of a child are those of the process [clone] created, and
    it was started on a descriptor with both flags clear. *)
Lemma trampoline_body_child (o : SysOutcomes)
    (clone : Mem -> Z + positive * Run) (m : Mem) :
  child_events (r_trace (trampoline_body SIGKILL SIGSTOP o clone m)) = []
  \/ exists m' pid rc,
      clone m' = inr (pid, rc)
      /\ child_events (r_trace (trampoline_body SIGKILL SIGSTOP o clone m))
         = r_trace rc
      /\ has_flag (flags (data m')) ETD_SETSID = false
      /\ has_flag (flags (data m')) ETD_DOUBLEFORK = false
      /\ (parent_signal (data m) < 0 -> parent_signal (data m') < 0)
      /\ (0 <= parent_signal (data m) -> parent_signal (data m') = 0).
Proof.
  unfold_body.
  split_flow; cbn [r_outcome r_mem r_trace data errno];
    try match goal with
      | Hev : Forall _ ?tr |- _ =>
          apply loop_ranks in Hev; destruct Hev as [_ Hev]
      end;
    rewrite ?child_events_app, ?child_events_child;
    cbn [child_events app]; rewrite ?child_events_child, ?app_nil_r;
    repeat match goal with
      | H : child_events _ = [] |- _ => rewrite H; clear H
      end;
    cbn [app]; try (left; reflexivity);
    right;
    match goal with
    | Hc : _ = inr (?pid, ?rc) |- _ =>
        eexists _, pid, rc; split; [ exact Hc | ]
    end;
    (split; [ reflexivity | ]); fields;
    rewrite !has_flag_clear_flag;
    cbn [N.eqb ETD_SETSID ETD_DOUBLEFORK Pos.eqb negb];
    rewrite ?andb_true_r, ?andb_false_r;
    repeat match goal with
      | H : (_ >=? 0) = true |- _ => fields_in H; apply Z.geb_le in H
      | H : (_ >=? 0) = false |- _ =>
          fields_in H; rewrite Z.geb_leb in H; apply Z.leb_gt in H
      end;
    repeat split; solve [ assumption | reflexivity | lia ].
Qed.

(** ** More on the loop over the mask *)

Lemma signal_numbers_app (a b : list Event) :
  signal_numbers (a ++ b) = signal_numbers a ++ signal_numbers b.
Proof.
  induction a as [| [[] res d | e] a IH]; simpl; try exact IH;
    [ reflexivity | now rewrite IH ].
Qed.

Lemma signal_numbers_child (l : list Event) :
  signal_numbers (map InChild l) = [].
Proof. induction l as [| e l IH]; simpl; [ reflexivity | exact IH ]. Qed.

Lemma signal_numbers_in (tr : list Event) (n : Z) :
  In n (signal_numbers tr)
  <-> exists res d, In (Call (sys_signal_ign n) res d) tr.
Proof.
  induction tr as [| ev tr IH]; simpl.
  - split; [ contradiction | intros (res & d & []) ].
  - destruct ev as [[] res d | e]; simpl; rewrite ?IH;
      try (split;
           [ intros (res' & d' & H); exists res', d'; now right
           | intros (res' & d' & [H | H]);
             [ discriminate | now exists res', d' ] ]).
    split.
    + intros [-> | (res' & d' & H)];
        [ exists res, d; now left | exists res', d'; now right ].
    + intros (res' & d' & [H | H]);
        [ injection H as -> _ _; now left | right; now exists res', d' ].
Qed.

(** The loop takes the signals in increasing order, each after [signum]. *)
Lemma sigign_loop_increasing (o : Z -> option Z) (d : ExecTrampolineData)
    (s : N) (k : Z) :
  StronglySorted Z.lt
    (signal_numbers (fst (sigign_loop SIGKILL SIGSTOP o d s k)))
  /\ Forall (fun n => k < n)
       (signal_numbers (fst (sigign_loop SIGKILL SIGSTOP o d s k))).
Proof.
  funelim (sigign_loop SIGKILL SIGSTOP o d s k); clear Heqcall Heq.
  - destruct (sigign_iteration_cases signal_o d sigign0 signum)
      as [-> | (_ & _ & _ & ->)]; simpl; repeat constructor. lia.
  - specialize (H [] None).
    destruct (sigign_loop SIGKILL SIGSTOP signal_o d (N.shiftr sigign0 1)
                (signum + 1)) as [tr' r].
    simpl in H. destruct H as [Hsorted Hall].
    assert (Hall' : Forall (fun n => signum < n) (signal_numbers tr')).
    { eapply Forall_impl; [ | exact Hall ]. simpl. intros. lia. }
    destruct (sigign_iteration_cases signal_o d sigign0 signum)
      as [-> | (_ & _ & _ & ->)]; simpl.
    + split; assumption.
    + destruct (signal_o (signum + 1)); simpl.
      * repeat constructor. lia.
      * split; constructor; try assumption; lia.
Qed.

(** A loop that ends with an [errno] ends with the call that failed with
    it; the calls before that one succeeded. *)
Lemma sigign_loop_failed (o : Z -> option Z) (d : ExecTrampolineData)
    (s : N) (k : Z) (e : Z) :
  snd (sigign_loop SIGKILL SIGSTOP o d s k) = Some e ->
  exists pre n,
    fst (sigign_loop SIGKILL SIGSTOP o d s k)
    = pre ++ [Call (sys_signal_ign n) (Some e) d]
    /\ Forall (fun ev => exists n', ev = Call (sys_signal_ign n') None d) pre.
Proof.
  funelim (sigign_loop SIGKILL SIGSTOP o d s k); clear Heqcall Heq.
  - destruct (sigign_iteration_cases signal_o d sigign0 signum)
      as [-> | (_ & _ & _ & ->)]; simpl; [ discriminate | ].
    intros ->. exists [], (signum + 1). split; [ reflexivity | constructor ].
  - specialize (H [] None).
    destruct (sigign_loop SIGKILL SIGSTOP signal_o d (N.shiftr sigign0 1)
                (signum + 1)) as [tr' r].
    simpl in H.
    destruct (sigign_iteration_cases signal_o d sigign0 signum)
      as [-> | (_ & _ & _ & ->)]; simpl.
    + exact (H e).
    + destruct (signal_o (signum + 1)) as [e' |]; simpl.
      * intros H1. injection H1 as ->.
        exists [], (signum + 1). split; [ reflexivity | constructor ].
      * intros Hr. destruct (H e Hr) as (pre & m & -> & Hpre).
        exists (Call (sys_signal_ign (signum + 1)) None d :: pre), m.
        split; [ reflexivity | ].
        constructor; [ now exists (signum + 1) | exact Hpre ].
Qed.

(** When no call fails, every set bit that is not one of the two signals
    left alone gets its call. *)
Lemma sigign_loop_complete (o : Z -> option Z) (d : ExecTrampolineData)
    (s : N) (k : Z) (sig : Z) :
  (forall i, o i = None) ->
  k < sig -> N.testbit s (Z.to_N (sig - k - 1)) = true ->
  sig <> SIGKILL -> sig <> SIGSTOP ->
  In (Call (sys_signal_ign sig) None d)
     (fst (sigign_loop SIGKILL SIGSTOP o d s k)).
Proof.
  intros Ho. revert sig.
  funelim (sigign_loop SIGKILL SIGSTOP o d s k); clear Heqcall Heq;
    intros sig Hk Hbit Hkill Hstop.
  - destruct (Z.eq_dec sig (signum + 1)) as [-> | Hne].
    + replace (signum + 1 - signum - 1) with 0 in Hbit by lia.
      unfold sigign_iteration.
      replace (N.land sigign0 1 =? 1)%N with true
        by (symmetry; destruct sigign0 as [| [p | p |]];
            try reflexivity; discriminate Hbit).
      destruct (Z.eqb_spec (signum + 1) SIGKILL); [ contradiction | ].
      destruct (Z.eqb_spec (signum + 1) SIGSTOP); [ contradiction | ].
      simpl. rewrite Ho. now left.
    + exfalso.
      replace (Z.to_N (sig - signum - 1))
        with (Z.to_N (sig - (signum + 1) - 1) + 1)%N in Hbit by lia.
      rewrite <- N.shiftr_spec in Hbit by apply N.le_0_l.
      rewrite e, N.bits_0 in Hbit. discriminate.
  - specialize (H [] None Ho).
    destruct (sigign_loop SIGKILL SIGSTOP signal_o d (N.shiftr sigign0 1)
                (signum + 1)) as [tr' r].
    simpl in H.
    assert (Hiter : sigign_iteration SIGKILL SIGSTOP signal_o d sigign0 signum
                    = ([], None)
                    \/ sigign_iteration SIGKILL SIGSTOP signal_o d sigign0 signum
                       = ([Call (sys_signal_ign (signum + 1)) None d], None)).
    { destruct (sigign_iteration_cases signal_o d sigign0
                  signum) as [-> | (_ & _ & _ & ->)];
        [ now left | rewrite Ho; now right ]. }
    destruct (Z.eq_dec sig (signum + 1)) as [-> | Hne].
    + replace (signum + 1 - signum - 1) with 0 in Hbit by lia.
      unfold sigign_iteration.
      replace (N.land sigign0 1 =? 1)%N with true
        by (symmetry; destruct sigign0 as [| [p | p |]];
            try reflexivity; discriminate Hbit).
      destruct (Z.eqb_spec (signum + 1) SIGKILL); [ contradiction | ].
      destruct (Z.eqb_spec (signum + 1) SIGSTOP); [ contradiction | ].
      simpl. rewrite Ho. simpl. now left.
    + assert (Hin : In (Call (sys_signal_ign sig) None d) tr').
      { apply H; try assumption; try lia.
        pose proof (N.shiftr_spec sigign0 1
                      (Z.to_N (sig - (signum + 1) - 1)) (N.le_0_l _)) as Hs.
        replace (Z.to_N (sig - (signum + 1) - 1) + 1)%N
          with (Z.to_N (sig - signum - 1)) in Hs by lia.
        exact (eq_trans Hs Hbit). }
      destruct Hiter as [-> | ->]; simpl; [ exact Hin | now right ].
Qed.

Lemma sigign_loop_all_succeed (o : Z -> option Z) (d : ExecTrampolineData)
    (s : N) (k : Z) :
  (forall i, o i = None) ->
  snd (sigign_loop SIGKILL SIGSTOP o d s k) = None.
Proof.
  intros Ho.
  destruct (snd (sigign_loop SIGKILL SIGSTOP o d s k)) as [e |] eqn:Hr;
    [ | reflexivity ].
  destruct (sigign_loop_failed o d s k e Hr) as (pre & n & Heq & _).
  pose proof (sigign_loop_events o d s k) as Hev.
  rewrite Heq in Hev. apply Forall_app in Hev. destruct Hev as [_ Hev].
  inversion Hev as [| ? ? (n' & Hcall & _) _]; subst.
  injection Hcall as _ Hres. rewrite Ho in Hres. discriminate.
Qed.

(** ** More on one pass of the trampoline *)

(** Case analysis along the control flow, with all the loop facts. *)
Ltac split_flow_more :=
  repeat (cbn [data errno]; match goal with
    | |- context [-1 <? 0] => change (-1 <? 0) with true
    | |- context [Z.pos ?p <? 0] => change (Z.pos p <? 0) with false
    | |- context [sigign_loop ?k ?s ?o ?d ?m ?n] =>
        let tr := fresh "tr" in
        let r := fresh "r" in
        let Hev := fresh "Hev" in
        let Hinc := fresh "Hinc" in
        let Hfail := fresh "Hfail" in
        let Hcomp := fresh "Hcomp" in
        let Hsucc := fresh "Hsucc" in
        pose proof (sigign_loop_events o d m n) as Hev;
        pose proof (proj1 (sigign_loop_increasing o d m n)) as Hinc;
        pose proof (sigign_loop_failed o d m n) as Hfail;
        pose proof (fun sig => sigign_loop_complete o d m n sig) as Hcomp;
        pose proof (sigign_loop_all_succeed o d m n) as Hsucc;
        destruct (sigign_loop k s o d m n) as [tr r];
        cbn [fst snd] in Hev, Hinc, Hfail, Hcomp, Hsucc
    | |- context [match ?x with _ => _ end] =>
        lazymatch x with
        | context [match _ with _ => _ end] => fail
        | _ => destruct x eqn:?
        end
    end); cbn [data errno].

(** Bring what was learnt about flags and fields back to the entry
    descriptor. *)
Ltac entry_facts :=
  repeat match goal with
    | H : has_flag _ _ = _ |- _ =>
        progress (fields_in H; rewrite ?has_flag_clear_flag in H;
                  cbn [N.eqb ETD_SETSID ETD_DOUBLEFORK ETD_SEARCH_PATH
                       Pos.eqb negb] in H;
                  rewrite ?andb_true_r in H)
    | H : envp _ = _ |- _ => progress (fields_in H)
    | H : (_ >=? 0) = _ |- _ => progress (fields_in H)
    | H : negb (_ =? 0)%N = _ |- _ => progress (fields_in H)
    | H : o_prctl _ _ = _ |- _ => progress (fields_in H)
    end.

Lemma ends_base (x y : Event) : exists pre, [x; y] = pre ++ [x; y].
Proof. now exists []. Qed.

Lemma ends_cons (a x y : Event) (l : list Event) :
  (exists pre, l = pre ++ [x; y]) -> exists pre, a :: l = pre ++ [x; y].
Proof. intros (pre & ->). now exists (a :: pre). Qed.

Lemma ends_app (x y : Event) (l1 l2 : list Event) :
  (exists pre, l2 = pre ++ [x; y]) -> exists pre, l1 ++ l2 = pre ++ [x; y].
Proof. intros (pre & ->). exists (l1 ++ pre). now rewrite app_assoc. Qed.

Ltac ends_with :=
  rewrite <- ?app_assoc; cbn [app];
  repeat first [ apply ends_base | apply ends_cons | apply ends_app ].

(** A failed call found in the loop's part of the trace is the one the
    loop ended with. *)
Ltac failed_in_loop H :=
  match goal with
  | Hfail : forall e, ?r = Some e -> _, Hev : Forall _ ?tr |- _ =>
      match type of H with
      | In (Call ?c (Some ?e) ?d) tr =>
          let Hres := fresh "Hres" in
          let pre := fresh "pre" in
          let n := fresh "n" in
          let Heq := fresh "Heq" in
          let Hpre := fresh "Hpre" in
          let Hx := fresh "Hx" in
          assert (Hres : r = Some e)
            by (rewrite Forall_forall in Hev;
                destruct (Hev _ H) as (? & Hx & _ & _ & _ & _ & Hres);
                injection Hx as _ Hx _; exact (Hres _ (eq_sym Hx)));
          destruct (Hfail _ Hres) as (pre & n & Heq & Hpre);
          subst tr; apply in_app_iff in H; destruct H as [H | H];
          [ rewrite Forall_forall in Hpre; destruct (Hpre _ H) as (? & Hx);
            discriminate Hx
          | destruct H as [H | []]; injection H as ? ?; subst ]
      end
  end.

(** Nothing follows a failed call but [raise(SIGKILL)]. *)
Lemma trampoline_body_fails_last (o : SysOutcomes)
    (clone : Mem -> Z + positive * Run) (m : Mem)
    (c : Syscall) (e : Z) (d : ExecTrampolineData) :
  let r := trampoline_body SIGKILL SIGSTOP o clone m in
  In (Call c (Some e) d) (r_trace r) ->
  exists pre,
    r_trace r
    = pre ++ [Call c (Some e) d;
              Call (sys_raise SIGKILL) None (data (r_mem r))].
Proof.
  unfold_body.
  split_flow_more; cbn [r_outcome r_mem r_trace data errno]; intros Hin;
    split_in Hin; try failed_in_loop Hin;
    try match goal with
      | Hres : Some _ = Some _ |- _ => injection Hres as ?; subst
      | Hres : None = Some _ |- _ => discriminate Hres
      end;
    ends_with.
Qed.

(** What the descriptor holds when an exec call is made. *)
Lemma trampoline_body_exec (o : SysOutcomes)
    (clone : Mem -> Z + positive * Run) (m : Mem)
    (v : ExecVariant) (res : option Z) (d : ExecTrampolineData) :
  In (Call (sys_exec v) res d) (r_trace (trampoline_body SIGKILL SIGSTOP o clone m)) ->
  v = exec_variant_of (data m)
  /\ res = o_exec o v
  /\ childpid d = Z.pos (o_pid o)
  /\ has_flag (flags d) ETD_SETSID = false
  /\ has_flag (flags d) ETD_DOUBLEFORK = false
  /\ parent_signal d <= 0
  /\ sigign d = 0%N
  /\ has_flag (flags (data m)) ETD_DOUBLEFORK = false.
Proof.
  unfold_body.
  split_flow_more; cbn [r_outcome r_mem r_trace data errno]; intros Hin;
    split_in Hin; try in_loop Hin;
    try match goal with
      | H : sys_exec _ = sys_signal_ign _ |- _ => discriminate H
      end;
    entry_facts; unfold exec_variant_of; fields;
    rewrite ?has_flag_clear_flag;
    cbn [N.eqb ETD_SETSID ETD_DOUBLEFORK ETD_SEARCH_PATH Pos.eqb negb];
    rewrite ?andb_true_r, ?andb_false_r;
    repeat match goal with
      | H : envp _ = _ |- _ => rewrite H
      | H : has_flag _ _ = _ |- _ => rewrite H
      | H : o_exec _ _ = _ |- _ => rewrite H
      | H : (_ >=? 0) = true |- _ => clear H
      | H : (_ >=? 0) = false |- _ =>
          rewrite Z.geb_leb in H; apply Z.leb_gt in H
      | H : negb (_ =? 0)%N = false |- _ =>
          apply negb_false_iff, N.eqb_eq in H
      end;
    repeat split; solve [ reflexivity | assumption | lia ].
Qed.

(** A pass that ends with the image replaced has reported nothing. *)
Lemma trampoline_body_replaced (o : SysOutcomes)
    (clone : Mem -> Z + positive * Run) (m : Mem) :
  let r := trampoline_body SIGKILL SIGSTOP o clone m in
  r_outcome r = ImageReplaced ->
  fun_ (data (r_mem r)) = fun_ (data m)
  /\ error (data (r_mem r)) = error (data m)
  /\ childpid (data (r_mem r)) = Z.pos (o_pid o)
  /\ exists pre v, r_trace r = pre ++ [Call (sys_exec v) None (data (r_mem r))].
Proof.
  unfold_body.
  split_flow_more; cbn [r_outcome r_mem r_trace data errno]; intros Hout;
    try discriminate Hout; fields;
    (split; [ reflexivity | split; [ reflexivity | split; [ reflexivity | ] ] ]);
    eexists _, _; rewrite ?app_assoc; reflexivity.
Qed.

(** A step name in the descriptor of a killed process is that of a call
    that failed, and the [errno] beside it is that call's. *)
Lemma trampoline_body_reported (o : SysOutcomes)
    (clone : Mem -> Z + positive * Run) (m : Mem) (f : string) :
  let r := trampoline_body SIGKILL SIGSTOP o clone m in
  r_outcome r = Killed SIGKILL ->
  fun_ (data (r_mem r)) = Some f ->
  exists c d,
    In (Call c (Some (error (data (r_mem r)))) d) (r_trace r)
    /\ step_name c = f.
Proof.
  unfold_body.
  split_flow_more; cbn [r_outcome r_mem r_trace data errno]; intros Hout;
    try discriminate Hout; fields; intros Hf; try discriminate Hf;
    injection Hf as <-;
    try match goal with
      | Hfail : forall e, Some ?z = Some e -> _ |- _ =>
          destruct (Hfail _ eq_refl) as (pre & n & -> & _)
      end;
    eexists _, _;
    (split; [ rewrite ?in_app_iff; cbn [In]; eauto 14 | reflexivity ]).
Qed.

(** A process that enters with the double-fork flag set makes none of the
    calls of the later steps: no [signal], no [getpid], no exec. *)
Lemma trampoline_body_middle (o : SysOutcomes)
    (clone : Mem -> Z + positive * Run) (m : Mem) (c : Syscall) :
  has_flag (flags (data m)) ETD_DOUBLEFORK = true ->
  In c (own_calls (r_trace (trampoline_body SIGKILL SIGSTOP o clone m))) ->
  (step_rank c <= 3)%nat \/ c = sys_raise SIGKILL.
Proof.
  intros Hdf. unfold_body.
  split_flow_more; cbn [r_outcome r_mem r_trace data errno];
    entry_facts; try congruence;
    rewrite ?own_calls_app, ?own_calls_child; cbn [own_calls app];
    rewrite ?own_calls_child, ?app_nil_r; cbn [app In];
    intros Hin;
    repeat match goal with
      | H : _ \/ _ |- _ => destruct H as [H | H]
      | H : False |- _ => contradiction
      | H : _ = c |- _ => subst c
      end;
    cbn [step_rank]; solve [ left; lia | right; reflexivity ].
Qed.

(** The signal numbers of a pass come in increasing order. *)
Lemma trampoline_body_signal_order (o : SysOutcomes)
    (clone : Mem -> Z + positive * Run) (m : Mem) :
  StronglySorted Z.lt
    (signal_numbers (r_trace (trampoline_body SIGKILL SIGSTOP o clone m))).
Proof.
  unfold_body.
  split_flow_more; cbn [r_outcome r_mem r_trace data errno];
    rewrite ?signal_numbers_app, ?signal_numbers_child;
    cbn [signal_numbers app];
    rewrite ?signal_numbers_child, ?app_nil_r; cbn [app];
    solve [ constructor | assumption ].
Qed.

(** When the steps before it pass, no process is created and no [signal]
    call fails, every signal the mask allows gets its call. *)
Lemma trampoline_body_signals_complete (o : SysOutcomes)
    (clone : Mem -> Z + positive * Run) (m : Mem) (n : Z) :
  has_flag (flags (data m)) ETD_SETSID = false \/ o_setsid o = None ->
  parent_signal (data m) < 0 \/ o_prctl o (parent_signal (data m)) = None ->
  has_flag (flags (data m)) ETD_DOUBLEFORK = false ->
  (forall i, o_signal o i = None) ->
  mask_allows SIGKILL SIGSTOP (sigign (data m)) n ->
  In n (signal_numbers (r_trace (trampoline_body SIGKILL SIGSTOP o clone m))).
Proof.
  intros Hsetsid Hprctl Hdf Hsig (Hn & Hbit & Hkill & Hstop). unfold_body.
  split_flow_more; cbn [r_outcome r_mem r_trace data errno];
    entry_facts;
    try (destruct Hsetsid; congruence);
    try congruence;
    try match goal with
      | H : (_ >=? 0) = true |- _ =>
          apply Z.geb_le in H; destruct Hprctl; [ lia | congruence ]
      end;
    try match goal with
      | H : negb (_ =? 0)%N = false |- _ =>
          apply negb_false_iff, N.eqb_eq in H; rewrite H, N.bits_0 in Hbit;
          discriminate Hbit
      end;
    try match goal with
      | Hsucc : _ -> Some _ = None |- _ => discriminate (Hsucc Hsig)
      end;
    rewrite ?signal_numbers_app; cbn [signal_numbers app];
    rewrite ?in_app_iff;
    match goal with
    | Hcomp : forall sig, _ -> _ -> _ -> _ -> _ -> In _ ?tr |- _ =>
        assert (Hin : In n (signal_numbers tr))
          by (apply signal_numbers_in; do 2 eexists;
              apply (Hcomp n Hsig); try assumption; try lia;
              fields; now replace (n - 0 - 1) with (n - 1) by lia)
    end;
    auto 10.
Qed.

Lemma same_program_trans (d1 d2 d3 : ExecTrampolineData) :
  same_program d1 d2 -> same_program d2 d3 -> same_program d1 d3.
Proof.
  unfold same_program. intros (H1 & H2 & H3 & H4) (K1 & K2 & K3 & K4).
  repeat split; congruence.
Qed.

(** No step touches [path], [argv], [envp] or the search flag. *)
Lemma trampoline_body_program (o : SysOutcomes)
    (clone : Mem -> Z + positive * Run) (m : Mem) :
  (forall m' pid rc,
      clone m' = inr (pid, rc) ->
      same_program (data m') (data (r_mem rc))
      /\ Forall (fun ev => same_program (data m') (descriptor_of ev))
                (r_trace rc)) ->
  let r := trampoline_body SIGKILL SIGSTOP o clone m in
  same_program (data m) (data (r_mem r))
  /\ Forall (fun ev => same_program (data m) (descriptor_of ev)) (r_trace r).
Proof.
  intros Hclone.
  unfold_body.
  split_flow; cbn [r_outcome r_mem r_trace data errno];
    try match goal with
      | Hc : _ = inr _ |- _ =>
          destruct (Hclone _ _ _ Hc) as [Hfinal Hevents];
          cbn [data] in Hfinal, Hevents
      end;
    try match goal with
      | Hev : Forall _ ?tr |- _ =>
          assert (Forall (fun ev => exists c res, ev = Call c res _) tr)
            by (eapply Forall_impl; [ | exact Hev ];
                intros ev (n & -> & _); eauto);
          clear Hev
      end;
    (split;
     [ | rewrite ?Forall_app; repeat split; repeat apply Forall_cons;
         try apply Forall_nil ]);
    cbn [descriptor_of];
    try match goal with
      | H : Forall (fun ev => exists c res, ev = Call c res ?d0) ?tr
        |- Forall _ ?tr =>
          eapply Forall_impl; [ | exact H ];
          intros ev (c & res & ->); cbn [descriptor_of]
      | Hevents : Forall _ (r_trace ?rc)
        |- Forall _ (map InChild (r_trace ?rc)) =>
          apply Forall_map; eapply Forall_impl; [ | exact Hevents ];
          intros ev Hsame; cbn [descriptor_of];
          apply same_program_trans with (2 := Hsame)
      | Hfinal : same_program ?da ?db |- same_program _ _ =>
          apply (same_program_trans (data m) da);
          [ | destruct Hfinal as (H1 & H2 & H3 & H4);
              unfold same_program; fields; fields_in H1; fields_in H2;
              fields_in H3; fields_in H4; repeat split; assumption ]
      end;
    unfold same_program; fields; rewrite ?has_flag_clear_flag;
    cbn [N.eqb ETD_SETSID ETD_DOUBLEFORK ETD_SEARCH_PATH Pos.eqb negb];
    rewrite ?andb_true_r; repeat split; reflexivity.
Qed.

Lemma exec_trampoline_program (env : ProcEnv) :
  forall m,
    same_program (data m) (data (r_mem (exec_trampoline SIGKILL SIGSTOP env m)))
    /\ Forall (fun ev => same_program (data m) (descriptor_of ev))
              (r_trace (exec_trampoline SIGKILL SIGSTOP env m)).
Proof.
  induction env using ProcEnv_mut with
    (P0 := fun c =>
       match c with
       | CloneFails _ => True
       | CloneOk _ child =>
           forall m,
             same_program (data m)
               (data (r_mem (exec_trampoline SIGKILL SIGSTOP child m)))
             /\ Forall (fun ev => same_program (data m) (descriptor_of ev))
                       (r_trace (exec_trampoline SIGKILL SIGSTOP child m))
       end); [ | exact I | exact IHenv ].
  intros m. rewrite exec_trampoline_eq. apply trampoline_body_program.
  intros m' pid rc Hc.
  destruct c as [e | pid' child]; [ discriminate | ].
  injection Hc as _ Hrc. subst rc. apply IHenv.
Qed.

(** Every [prctl] call of a pass, its own or its child's, is made with a
    value that is not negative: the one found in the descriptor, or 0. *)
Lemma trampoline_body_prctl (o : SysOutcomes)
    (clone : Mem -> Z + positive * Run) (m : Mem) :
  (forall m' pid rc ev s,
      clone m' = inr (pid, rc) -> In ev (r_trace rc) ->
      call_of ev = sys_prctl_set_pdeathsig s ->
      0 <= s /\ (s = parent_signal (data m') \/ s = 0)) ->
  forall ev s,
    In ev (r_trace (trampoline_body SIGKILL SIGSTOP o clone m)) ->
    call_of ev = sys_prctl_set_pdeathsig s ->
    0 <= s /\ (s = parent_signal (data m) \/ s = 0).
Proof.
  intros Hclone ev s. unfold_body.
  split_flow; cbn [r_outcome r_mem r_trace data errno]; intros Hin Hcall;
    split_in Hin; try in_loop Hin; try discriminate Hcall;
    try (injection Hcall as <-; fields;
         match goal with
         | H : (_ >=? 0) = true |- _ =>
             fields_in H; apply Z.geb_le in H; split; [ exact H | now left ]
         end).
  all: apply in_map_iff in Hin; destruct Hin as (ev' & <- & Hin');
    match goal with
    | Hc : _ = inr _ |- _ =>
        destruct (Hclone _ _ _ _ _ Hc Hin' Hcall) as [Hge [Heq | Heq]]
    end;
    fields_in Heq; (split; [ exact Hge | ]); auto.
Qed.

Lemma exec_trampoline_prctl (env : ProcEnv) :
  forall m ev s,
    In ev (r_trace (exec_trampoline SIGKILL SIGSTOP env m)) ->
    call_of ev = sys_prctl_set_pdeathsig s ->
    0 <= s /\ (s = parent_signal (data m) \/ s = 0).
Proof.
  induction env using ProcEnv_mut with
    (P0 := fun c =>
       match c with
       | CloneFails _ => True
       | CloneOk _ child =>
           forall m ev s,
             In ev (r_trace (exec_trampoline SIGKILL SIGSTOP child m)) ->
             call_of ev = sys_prctl_set_pdeathsig s ->
             0 <= s /\ (s = parent_signal (data m) \/ s = 0)
       end); [ | exact I | exact IHenv ].
  intros m ev s. rewrite exec_trampoline_eq. apply trampoline_body_prctl.
  intros m' pid rc ev' s' Hc.
  destruct c as [e | pid' child]; [ discriminate | ].
  injection Hc as _ Hrc. subst rc. apply IHenv.
Qed.

(** [setsid] is called exactly when the flag is set on entry. *)
Lemma trampoline_body_setsid (o : SysOutcomes)
    (clone : Mem -> Z + positive * Run) (m : Mem) :
  In sys_setsid
     (own_calls (r_trace (trampoline_body SIGKILL SIGSTOP o clone m)))
  <-> has_flag (flags (data m)) ETD_SETSID = true.
Proof.
  unfold_body.
  split_flow; cbn [r_outcome r_mem r_trace data errno];
    try match goal with
      | Hev : Forall _ ?tr |- _ =>
          let H := fresh "Hloop" in
          assert (H : ~ In sys_setsid (own_calls tr))
            by (clear - Hev; induction Hev as [| ev tr (n & -> & _) _ IH];
                simpl; [ tauto | intros [Hx | Hx];
                                 [ discriminate | tauto ] ]);
          clear Hev
      end;
    rewrite ?own_calls_app, ?own_calls_child; cbn [own_calls app];
    rewrite ?own_calls_child, ?app_nil_r; cbn [app];
    split.
  all: try (intros Hin;
       repeat match goal with
         | H : In _ (_ ++ _) |- _ => apply in_app_or in H
         | H : In _ (_ :: _) |- _ => destruct H as [H | H]
         | H : In _ [] |- _ => contradiction
         | H : _ \/ _ |- _ => destruct H as [H | H]
         | H : False |- _ => contradiction
         | H : _ = sys_setsid |- _ => first [ discriminate H | clear H ]
         end; solve [ reflexivity | contradiction ]).
  all: intros Hflag; repeat rewrite in_app_iff; cbn [In];
    solve [ discriminate Hflag | auto 10 ].
Qed.

(** An exec call, of the process or of its child, is the variant that goes
    with the descriptor it is made on. *)
Lemma trampoline_body_exec_variant (o : SysOutcomes)
    (clone : Mem -> Z + positive * Run) (m : Mem) :
  (forall m' pid rc ev v,
      clone m' = inr (pid, rc) -> In ev (r_trace rc) ->
      call_of ev = sys_exec v -> v = exec_variant_of (descriptor_of ev)) ->
  forall ev v,
    In ev (r_trace (trampoline_body SIGKILL SIGSTOP o clone m)) ->
    call_of ev = sys_exec v -> v = exec_variant_of (descriptor_of ev).
Proof.
  intros Hclone ev v. unfold_body.
  split_flow; cbn [r_outcome r_mem r_trace data errno]; intros Hin Hcall;
    split_in Hin; try in_loop Hin; try discriminate Hcall;
    try (injection Hcall as <-; cbn [descriptor_of]; unfold exec_variant_of;
         repeat match goal with
           | H : envp _ = _ |- _ => rewrite H
           | H : has_flag _ ETD_SEARCH_PATH = _ |- _ => rewrite H
           end; reflexivity).
  all: apply in_map_iff in Hin; destruct Hin as (ev' & <- & Hin');
    match goal with
    | Hc : _ = inr _ |- _ => exact (Hclone _ _ _ _ _ Hc Hin' Hcall)
    end.
Qed.

Lemma exec_trampoline_exec_variant (env : ProcEnv) :
  forall m ev v,
    In ev (r_trace (exec_trampoline SIGKILL SIGSTOP env m)) ->
    call_of ev = sys_exec v -> v = exec_variant_of (descriptor_of ev).
Proof.
  induction env using ProcEnv_mut with
    (P0 := fun c =>
       match c with
       | CloneFails _ => True
       | CloneOk _ child =>
           forall m ev v,
             In ev (r_trace (exec_trampoline SIGKILL SIGSTOP child m)) ->
             call_of ev = sys_exec v -> v = exec_variant_of (descriptor_of ev)
       end); [ | exact I | exact IHenv ].
  intros m ev v. rewrite exec_trampoline_eq.
  apply trampoline_body_exec_variant.
  intros m' pid rc ev' v' Hc.
  destruct c as [e | pid' child]; [ discriminate | ].
  injection Hc as _ Hrc. subst rc. apply IHenv.
Qed.

End TrampolineFacts.

(** * Properties of the caller side *)

Section CallerFacts.

Variables _NSIG SIGKILL SIGSTOP : Z.

Lemma b2z_zero (b : bool) : (b2z b =? 0) = negb b.
Proof. destruct b; reflexivity. Qed.

(** After a successful [clone] the result is read off the descriptor and
    the last [waitpid] made. *)
Lemma cloneandexecve_spawn_ok (a : Parsed) (ce : CallerEnv) (pid : positive)
    (child : ProcEnv) :
  c_clone ce = CloneOk pid child ->
  let d := data (r_mem (exec_trampoline SIGKILL SIGSTOP child
                          (mkMem (initial_descriptor a) (c_errno ce)))) in
  cloneandexecve_spawn SIGKILL SIGSTOP a ce
  = match fun_ d with
    | Some f =>
        Raise PyExc_OSError "clone successful, but %s failed with errno=%d"
              [ArgStr f; ArgInt (error d)]
    | None =>
        let last_wait :=
          if (childpid d >=? 0) && negb (childpid d =? Z.pos pid)
          then c_waitpid2 ce else c_waitpid1 ce in
        if last_wait >? 0 then Return Py_None
        else Return (PyLong (childpid d))
    end.
Proof.
  intros Hclone d. unfold cloneandexecve_spawn. rewrite Hclone. fold d.
  destruct (fun_ d); [ reflexivity | ].
  destruct ((childpid d >=? 0) && negb (childpid d =? Z.pos pid));
    rewrite b2z_zero.
  - now destruct (c_waitpid2 ce >? 0).
  - now destruct (c_waitpid1 ce >? 0).
Qed.

(** What a successful parse put into the local variables. *)
Lemma cloneandexecve_parse_ok (kw : Kwargs) (a : Parsed) :
  cloneandexecve_parse _NSIG kw = Ok a ->
  signal_m1_convert _NSIG (kw_signal kw) = Ok (exec_signal a)
  /\ sigign_converter _NSIG (kw_sigign kw) = Ok (exec_sigign a)
  /\ exec_path a = kw_path kw
  /\ exec_args a = kw_args kw
  /\ exec_env a = kw_env kw.
Proof.
  unfold cloneandexecve_parse, bind_conv.
  destruct (signal_m1_convert _NSIG (kw_signal kw)); [ | discriminate ].
  destruct (bool_false_converter (kw_sibling kw)); [ | discriminate ].
  destruct (bool_false_converter (kw_search_path kw)); [ | discriminate ].
  destruct (bool_false_converter (kw_setsid kw)); [ | discriminate ].
  destruct (bool_false_converter (kw_doublefork kw)); [ | discriminate ].
  destruct (sigign_converter _NSIG (kw_sigign kw)); [ | discriminate ].
  intros H. injection H as <-. repeat split.
Qed.

(** The three flags of the descriptor are the three booleans. *)
Lemma initial_descriptor_flags (a : Parsed) :
  has_flag (flags (initial_descriptor a)) ETD_SEARCH_PATH = exec_search_path a
  /\ has_flag (flags (initial_descriptor a)) ETD_SETSID = exec_setsid a
  /\ has_flag (flags (initial_descriptor a)) ETD_DOUBLEFORK
     = exec_doublefork a.
Proof.
  destruct a as [p ar en sg sb sp ss df mask]. cbn.
  destruct sp, ss, df; repeat split.
Qed.

(** A byte string without a NUL byte is its own C string. *)
Lemma PyBytes_AS_STRING_no_nul (b : string) :
  has_nul b = false -> PyBytes_AS_STRING b = b.
Proof.
  induction b as [| c rest IH]; simpl; [ reflexivity | ].
  destruct (Ascii.eqb c "000"); simpl; [ discriminate | ].
  intros H. now rewrite IH.
Qed.

Lemma map_PyBytes_AS_STRING_no_nul (l : list string) :
  forallb (fun b => negb (has_nul b)) l = true ->
  map PyBytes_AS_STRING l = l.
Proof.
  induction l as [| b l IH]; simpl; [ reflexivity | ].
  intros H. apply andb_true_iff in H. destruct H as [Hb Hl].
  apply negb_true_iff in Hb.
  now rewrite PyBytes_AS_STRING_no_nul, IH.
Qed.

(** The C string of a byte string holds no NUL byte, and is all that
    comes before the first one. *)
Lemma PyBytes_AS_STRING_cut (b : string) :
  has_nul (PyBytes_AS_STRING b) = false
  /\ (has_nul b = true ->
      exists rest, b = (PyBytes_AS_STRING b ++ String "000" rest)%string).
Proof.
  induction b as [| c b IH]; simpl; [ split; [ reflexivity | discriminate ] | ].
  destruct (Ascii.eqb_spec c "000") as [-> | Hc]; simpl.
  - split; [ reflexivity | ]. intros _. now exists b.
  - destruct IH as [IH1 IH2].
    apply Ascii.eqb_neq in Hc. rewrite Hc. simpl.
    split; [ exact IH1 | ].
    intros H. destruct (IH2 H) as [rest Hrest]. exists rest.
    now rewrite <- Hrest.
Qed.

(** The first item that [as_bytes] refuses ends the loop of
    [object_as_list_of_bytes]. *)
Lemma as_bytes_each_first_refused
    (utf8_strict : list Z -> Converted (list Z)) (pre : list PyText)
    (bad : PyText) (rest : list PyText) (e : PyErr) :
  Forall (fun x => exists b, as_bytes utf8_strict x = Ok b) pre ->
  as_bytes utf8_strict bad = Fail e ->
  as_bytes_each utf8_strict (pre ++ bad :: rest) = Fail e.
Proof.
  intros Hpre Hbad. induction Hpre as [| x pre [b Hx] _ IH]; simpl.
  - now rewrite Hbad.
  - now rewrite Hx, IH.
Qed.

End CallerFacts.

(** * The claims *)

(** C10: a truthy [sigign] that converts to an unsigned 64-bit integer is
    the mask as it stands ([True] gives 1, and an integer above every signal
    number is taken too); the element loop sees only the inputs whose integer
    conversion raises [TypeError], and any other conversion error is the
    result. *)
Theorem sigign_integer_is_mask (_NSIG : Z) (o : PyObject) :
  (forall z, int_value o = Some z -> 0 < z <= ULLONG_MAX ->
             sigign_converter _NSIG (Some o) = Ok (Z.to_N z))
  /\ sigign_converter _NSIG (Some (PyBool true)) = Ok 1%N
  /\ (fst (PyObject_IsTrue o) > 0 ->
      match PyLong_AsUnsignedLongLong o with
      | (v, None) => sigign_converter _NSIG (Some o) = Ok (Z.to_N v)
      | (_, Some e) =>
          sigign_converter _NSIG (Some o)
          = if PyExc_eqb e PyExc_TypeError
            then match PyObject_GetIter o with
                 | (None, ierr) => Fail ierr
                 | (Some (elems, stop), _) =>
                     sigign_converter_loop _NSIG elems stop 0%N
                 end
            else Fail (Some e)
      end).
Proof.
  split; [ | split ].
  - intros z Hv Hz. now apply sigign_converter_int.
  - reflexivity.
  - intros Htrue. destruct o as [| b | z | [e | b] | [| x l] | l stop];
      simpl in Htrue; try lia; try reflexivity.
    + destruct b; simpl in Htrue; [ reflexivity | lia ].
    + destruct (Z.eq_dec z 0) as [Hz0 | Hz];
        [ subst z; simpl in Htrue; lia | ].
      unfold PyLong_AsUnsignedLongLong, int_value.
      destruct ((z <? 0) || (ULLONG_MAX <? z)) eqn:Hrange.
      * unfold sigign_converter, PyObject_IsTrue.
        destruct (Z.eqb_spec z 0); [ contradiction | ].
        unfold PyLong_AsUnsignedLongLong, int_value. rewrite Hrange.
        reflexivity.
      * apply orb_false_iff in Hrange. destruct Hrange as [H0 Hmax].
        apply Z.ltb_ge in H0, Hmax.
        apply sigign_converter_int; [ reflexivity | lia ].
    + destruct b; simpl in Htrue; [ reflexivity | lia ].
Qed.

(** At an integer far above every signal number. *)
Lemma sigign_integer_is_mask_witness :
  sigign_converter linux_NSIG (Some (PyLong (2 ^ 40))) = Ok (2 ^ 40)%N.
Proof.
  apply (proj1 (sigign_integer_is_mask linux_NSIG (PyLong (2 ^ 40))) (2 ^ 40)).
  - reflexivity.
  - unfold ULLONG_MAX. lia.
Defined.


(** C6, as stated, fails: the bare boolean [True] does not encode to the
    full mask.  It converts to the integer 1, which becomes the mask. *)
Lemma sigign_true_is_not_full_mask :
  sigign_converter linux_NSIG (Some (PyBool true)) = Ok 1%N
  /\ sigign_converter linux_NSIG (Some (PyBool true)) <> Ok full_mask.
Proof. split; [ reflexivity | discriminate ]. Qed.

(** C6, amended: [True] encodes to the mask 1 (bit 0 only); a truthy value
    that is neither an integer nor iterable is refused with [TypeError]; a
    false or missing argument encodes to the empty mask 0. *)
Theorem sigign_shorthand (_NSIG : Z) :
  sigign_converter _NSIG (Some (PyBool true)) = Ok 1%N
  /\ sigign_converter _NSIG (Some (PyOpaque (inr true)))
     = Fail (Some PyExc_TypeError)
  /\ sigign_converter _NSIG None = Ok 0%N
  /\ sigign_converter _NSIG (Some Py_None) = Ok 0%N
  /\ sigign_converter _NSIG (Some (PyBool false)) = Ok 0%N
  /\ sigign_converter _NSIG (Some (PyLong 0)) = Ok 0%N
  /\ sigign_converter _NSIG (Some (PySeq [])) = Ok 0%N
  /\ sigign_converter _NSIG (Some (PyOpaque (inr false))) = Ok 0%N.
Proof. repeat split. Qed.

(** C7 at the signal number 34: the element [1 << 33] is computed in [int],
    so the mask gets bit 1 (signal 2) instead of bit 33, and the trampoline
    then ignores signal 2 and leaves signal 34 alone. *)
Theorem sigign_34_sets_bit_of_signal_2 :
  sigign_converter linux_NSIG (Some (PySeq [PyLong 34])) = Ok 2%N
  /\ N.testbit 2 33 = false
  /\ N.testbit 2 1 = true
  /\ map call_of
       (r_trace (exec_trampoline linux_SIGKILL linux_SIGSTOP
                   (leaf (all_succeed 4242))
                   (mkMem (descriptor 0 (-1) 2) 0)))
     = [sys_signal_ign 2; sys_getpid; sys_exec Execv].
Proof. repeat split. Qed.

(** C2: the trampoline never returns: a run ends with the image replaced or
    with the process killed by [SIGKILL]; and whenever one of its calls
    fails (setsid, prctl, the double-fork clone, signal, or an exec variant),
    the name of that call and its [errno] are in the descriptor when
    [raise(SIGKILL)] is made, which is the last thing the process does. *)
Theorem trampoline_failure_is_reported (SIGKILL SIGSTOP : Z) (env : ProcEnv)
    (m : Mem) :
  let r := exec_trampoline SIGKILL SIGSTOP env m in
  (forall v, r_outcome r <> Returned v)
  /\ (r_outcome r = ImageReplaced \/ r_outcome r = Killed SIGKILL)
  /\ (forall c e d,
         In (Call c (Some e) d) (r_trace r) ->
         r_outcome r = Killed SIGKILL
         /\ fun_ (data (r_mem r)) = Some (step_name c)
         /\ error (data (r_mem r)) = e
         /\ exists tr,
             r_trace r
             = tr ++ [Call (sys_raise SIGKILL) None (data (r_mem r))]).
Proof.
  destruct env as [o c]. cbv zeta. rewrite exec_trampoline_eq.
  split; [ | split ].
  - intros v. apply trampoline_body_never_returns.
  - apply trampoline_body_outcome.
  - intros c0 e d. apply trampoline_body_failure.
Qed.

(** A nonexistent path: [execv] fails with [ENOENT]. *)
Lemma trampoline_failure_is_reported_witness :
  let r := exec_trampoline linux_SIGKILL linux_SIGSTOP
             (leaf (exec_fails 4242 ENOENT)) (mkMem (descriptor 0 (-1) 0) 0) in
  r_outcome r = Killed linux_SIGKILL
  /\ fun_ (data (r_mem r)) = Some "execv"
  /\ error (data (r_mem r)) = ENOENT
  /\ exists tr,
      r_trace r
      = tr ++ [Call (sys_raise linux_SIGKILL) None (data (r_mem r))].
Proof.
  apply (proj2 (proj2 (trampoline_failure_is_reported
                         linux_SIGKILL linux_SIGSTOP
                         (leaf (exec_fails 4242 ENOENT))
                         (mkMem (descriptor 0 (-1) 0) 0)))
           (sys_exec Execv) ENOENT
           (with_childpid (descriptor 0 (-1) 0) 4242)).
  simpl. right. left. reflexivity.
Defined.

(** C4: in the middle process of a double fork, once the first two steps
    have passed, the child is created on a descriptor in which the
    session-detach and double-fork flags are both clear and runs this same
    trampoline; the middle process does nothing more than kill itself; and
    what it leaves in [fun] says only whether [clone] failed, whatever the
    child has reported. *)
Theorem doublefork_middle_process (SIGKILL SIGSTOP : Z) (o : SysOutcomes)
    (c : CloneOutcome) (m m1 : Mem) (tr1 : list Event) :
  has_flag (flags (data m)) ETD_DOUBLEFORK = true ->
  (step_setsid o ;; step_pdeathsig o) m = (m1, tr1, Continue) ->
  let d := with_flags (data m1) (clear_flag (flags (data m1)) ETD_DOUBLEFORK) in
  let r := exec_trampoline SIGKILL SIGSTOP (Proc o c) m in
  has_flag (flags d) ETD_SETSID = false
  /\ has_flag (flags d) ETD_DOUBLEFORK = false
  /\ r_outcome r = Killed SIGKILL
  /\ match c with
     | CloneFails e =>
         fun_ (data (r_mem r)) = Some "clone(doublefork)"
         /\ error (data (r_mem r)) = e
         /\ r_trace r
            = tr1 ++ [Call sys_clone (Some e) d;
                      Call (sys_raise SIGKILL) None (data (r_mem r))]
     | CloneOk pid child =>
         let rc := exec_trampoline SIGKILL SIGSTOP child (mkMem d (errno m1)) in
         fun_ (data (r_mem r)) = None
         /\ r_trace r
            = tr1 ++ Call sys_clone None d :: map InChild (r_trace rc)
                  ++ [Call (sys_raise SIGKILL) None (data (r_mem r))]
     end.
Proof.
  intros Hdf Hpass d r.
  destruct (first_steps_pass _ _ _ _ Hpass) as (Hs1 & Hd1 & _).
  assert (Hr : r = trampoline_body SIGKILL SIGSTOP o
                     (run_clone SIGKILL SIGSTOP c) m) by reflexivity.
  rewrite (trampoline_body_doublefork SIGKILL SIGSTOP o _ m m1 tr1 Hpass Hdf)
    in Hr.
  fold d in Hr.
  split; [ | split ].
  - unfold d. cbn [flags with_flags]. rewrite has_flag_clear_flag, Hs1.
    reflexivity.
  - unfold d. cbn [flags with_flags]. rewrite has_flag_clear_flag, N.eqb_refl.
    apply andb_false_r.
  - destruct c as [e | pid child]; cbn [run_clone] in Hr; rewrite Hr;
      cbn -[d]; repeat split.
Qed.

(** The child's [execv] fails with [ENOENT] and it reports so; the middle
    process then leaves [fun] empty. *)
Lemma doublefork_middle_process_witness :
  let d := descriptor 0 0 0 in
  let rc := exec_trampoline linux_SIGKILL linux_SIGSTOP
              (leaf (exec_fails 4243 ENOENT)) (mkMem d 0) in
  let r := exec_trampoline linux_SIGKILL linux_SIGSTOP
             (middle_and_child (exec_fails 4243 ENOENT))
             (mkMem (descriptor 6 SIGTERM 0) 0) in
  fun_ (data (r_mem rc)) = Some "execv"
  /\ fun_ (data (r_mem r)) = None
  /\ r_outcome r = Killed linux_SIGKILL.
Proof.
  intros d rc r.
  pose proof (doublefork_middle_process linux_SIGKILL linux_SIGSTOP
                (all_succeed 4242) (CloneOk 4243 (leaf (exec_fails 4243 ENOENT)))
                (mkMem (descriptor 6 SIGTERM 0) 0)
                (mkMem (descriptor 4 0 0) 0)
                [Call sys_setsid None (descriptor 4 SIGTERM 0);
                 Call (sys_prctl_set_pdeathsig SIGTERM) None (descriptor 4 0 0)]
                eq_refl eq_refl) as (_ & _ & Hout & Hfun & _).
  split; [ reflexivity | split; [ exact Hfun | exact Hout ] ].
Defined.

(** C9: a sequence of numbers in [0, _NSIG] is encoded without error,
    whether or not it names [SIGKILL] or [SIGSTOP]; and whatever the mask,
    each [signal(n, SIG_IGN)] call made while the trampoline runs is for a
    set bit [n - 1] with [n] neither [SIGKILL] nor [SIGSTOP]. *)
Theorem forbidden_signals_are_skipped (_NSIG SIGKILL SIGSTOP : Z)
    (l : list Z) (env : ProcEnv) (m : Mem) (ev : Event) (n : Z) :
  Forall (fun s => 0 <= s <= _NSIG) l -> _NSIG < 2 ^ 31 ->
  In ev (r_trace (exec_trampoline SIGKILL SIGSTOP env m)) ->
  call_of ev = sys_signal_ign n ->
  (exists mask, sigign_converter _NSIG (Some (PySeq (map PyLong l))) = Ok mask)
  /\ N.testbit (sigign (data m)) (Z.to_N (n - 1)) = true
  /\ n <> SIGKILL /\ n <> SIGSTOP.
Proof.
  intros Hl Hsig Hin Hcall. split.
  - now apply sigign_converter_accepts.
  - destruct (exec_trampoline_signals SIGKILL SIGSTOP env m ev n Hin Hcall)
      as (_ & Hbit & Hkill & Hstop).
    auto.
Qed.

(** [sigign=[9, 19, 15]] is accepted; only signal 15 is touched. *)
Lemma forbidden_signals_are_skipped_witness :
  (exists mask,
      sigign_converter linux_NSIG
        (Some (PySeq (map PyLong [linux_SIGKILL; linux_SIGSTOP; SIGTERM])))
      = Ok mask)
  /\ N.testbit 278784 (Z.to_N (SIGTERM - 1)) = true
  /\ SIGTERM <> linux_SIGKILL /\ SIGTERM <> linux_SIGSTOP.
Proof.
  apply (forbidden_signals_are_skipped linux_NSIG linux_SIGKILL linux_SIGSTOP
           [linux_SIGKILL; linux_SIGSTOP; SIGTERM]
           (leaf (all_succeed 4242)) (mkMem (descriptor 0 (-1) 278784) 0)
           (Call (sys_signal_ign SIGTERM) None (descriptor 0 (-1) 0)) SIGTERM).
  - repeat constructor; unfold linux_NSIG, linux_SIGKILL, linux_SIGSTOP, SIGTERM;
      lia.
  - unfold linux_NSIG. lia.
  - vm_compute. left. reflexivity.
  - reflexivity.
Defined.

(** C1, as stated, fails in its last part: with [signal=15] and
    [doublefork=True] the second pass does not skip the parent-death-signal
    step; it calls [prctl] again, with the 0 the first pass left. *)
Lemma second_pass_repeats_pdeathsig_step :
  let r := exec_trampoline linux_SIGKILL linux_SIGSTOP
             (middle_and_child (all_succeed 4243))
             (mkMem (descriptor 6 SIGTERM 0) 0) in
  own_calls (r_trace r)
  = [sys_setsid; sys_prctl_set_pdeathsig SIGTERM; sys_clone;
     sys_raise linux_SIGKILL]
  /\ map call_of (child_events (r_trace r))
     = [sys_prctl_set_pdeathsig 0; sys_getpid; sys_exec Execv]
  /\ ~ second_pass_skips (r_trace r).
Proof.
  intros r. split; [ reflexivity | split; [ reflexivity | ] ].
  intros Hskip.
  specialize (Hskip (Call (sys_prctl_set_pdeathsig 0) None (descriptor 0 0 0))).
  simpl in Hskip. assert (H : (3 < 2)%nat) by (apply Hskip; left; reflexivity).
  lia.
Qed.

(** C1, amended: the calls of a pass come in the order session detach,
    parent-death signal, double fork, signal dispositions, getpid, exec,
    raise; each of the four guarded steps has cleared its trigger field in
    the descriptor by the time it makes its call; and the second pass of a
    double fork makes no [setsid] and no [clone] call and creates no
    process, but it does take the parent-death-signal step again whenever
    the first pass took it, calling [prctl] with 0 instead of the requested
    signal. *)
Theorem trampoline_step_order (SIGKILL SIGSTOP : Z) (env : ProcEnv) (m : Mem) :
  let r := exec_trampoline SIGKILL SIGSTOP env m in
  StronglySorted le (map step_rank (own_calls (r_trace r)))
  /\ (forall c res d, In (Call c res d) (r_trace r) -> trigger_cleared c d)
  /\ (forall ev,
         In ev (child_events (r_trace r)) ->
         exists c res d,
           ev = Call c res d /\ c <> sys_setsid /\ c <> sys_clone
           /\ (forall s, c = sys_prctl_set_pdeathsig s -> s = 0))
  /\ (child_events (r_trace r) <> [] -> 0 <= parent_signal (data m) ->
      exists res d,
        In (Call (sys_prctl_set_pdeathsig 0) res d) (child_events (r_trace r))).
Proof.
  destruct env as [o c]. cbv zeta. rewrite exec_trampoline_eq.
  split; [ | split; [ | split ] ].
  - apply trampoline_body_order.
  - intros c0 res d. apply trampoline_body_cleared.
  - intros ev Hin.
    destruct (trampoline_body_child SIGKILL SIGSTOP o
                (run_clone SIGKILL SIGSTOP c) m)
      as [Hnil | (m' & pid & rc & Hc & Hch & Hs & Hd & Hneg & Hpos)];
      [ rewrite Hnil in Hin; contradiction | ].
    rewrite Hch in Hin.
    destruct c as [e | pid' [o' c']]; [ discriminate | ].
    injection Hc as _ Hrc. subst rc.
    destruct (trampoline_body_second_pass SIGKILL SIGSTOP o' _ m' ev Hs Hd Hin)
      as (c0 & res & d & -> & Hc1 & Hc2 & Hsig).
    exists c0, res, d. repeat split; try assumption.
    intros s Heq. destruct (Hsig s Heq) as [-> Hge].
    destruct (Z.lt_ge_cases (parent_signal (data m)) 0) as [Hlt | Hle].
    + specialize (Hneg Hlt). lia.
    + exact (Hpos Hle).
  - intros Hne Hge.
    destruct (trampoline_body_child SIGKILL SIGSTOP o
                (run_clone SIGKILL SIGSTOP c) m)
      as [Hnil | (m' & pid & rc & Hc & Hch & Hs & _ & _ & Hpos)];
      [ contradiction | ].
    rewrite Hch. specialize (Hpos Hge).
    destruct c as [e | pid' [o' c']]; [ discriminate | ].
    injection Hc as _ Hrc. subst rc.
    destruct (trampoline_body_pdeathsig SIGKILL SIGSTOP o'
                (run_clone SIGKILL SIGSTOP c') m' (or_introl Hs))
      as [Hcall _].
    rewrite Hpos in Hcall. destruct (Hcall (Z.le_refl 0)) as (d & Hd & _).
    exists (o_prctl o' 0), d. exact Hd.
Qed.


(** With [signal=15] and [doublefork=True] the second pass takes the
    parent-death-signal step again. *)
Lemma trampoline_step_order_witness :
  exists res d,
    In (Call (sys_prctl_set_pdeathsig 0) res d)
       (child_events
          (r_trace (exec_trampoline linux_SIGKILL linux_SIGSTOP
                      (middle_and_child (all_succeed 4243))
                      (mkMem (descriptor 6 SIGTERM 0) 0)))).
Proof.
  apply (proj2 (proj2 (proj2 (trampoline_step_order
                                linux_SIGKILL linux_SIGSTOP
                                (middle_and_child (all_succeed 4243))
                                (mkMem (descriptor 6 SIGTERM 0) 0))))).
  - simpl. discriminate.
  - simpl. unfold SIGTERM. lia.
Defined.

(** C5, as stated, fails in its second half: a pass that finds 0 in
    [parent_signal] (as the second pass of a double fork does) still takes
    the step and calls [prctl(PR_SET_PDEATHSIG, 0)]. *)
Lemma zero_does_not_skip_pdeathsig_step :
  parent_signal (descriptor 0 0 0) = 0
  /\ own_calls
       (r_trace (exec_trampoline linux_SIGKILL linux_SIGSTOP
                   (leaf (all_succeed 4243)) (mkMem (descriptor 0 0 0) 0)))
     = [sys_prctl_set_pdeathsig 0; sys_getpid; sys_exec Execv].
Proof. split; reflexivity. Qed.

(** C5, amended: when the session-detach step has passed and the field
    holds a value [s >= 0], the field is set to 0 and [prctl] is then called
    with [s], and the field is 0 when the run ends; this includes [s = 0],
    so the value 0 does not disable the step (a second pass calls [prctl]
    with 0 rather than with the signal first requested); the step is
    skipped exactly when the field is negative. *)
Theorem pdeathsig_step_clears_field (SIGKILL SIGSTOP : Z) (o : SysOutcomes)
    (c : CloneOutcome) (m : Mem) :
  has_flag (flags (data m)) ETD_SETSID = false \/ o_setsid o = None ->
  let s := parent_signal (data m) in
  let r := exec_trampoline SIGKILL SIGSTOP (Proc o c) m in
  (0 <= s ->
   (exists d,
       In (Call (sys_prctl_set_pdeathsig s) (o_prctl o s) d) (r_trace r)
       /\ parent_signal d = 0)
   /\ parent_signal (data (r_mem r)) = 0)
  /\ (s < 0 ->
      forall s' res d,
        ~ In (Call (sys_prctl_set_pdeathsig s') res d) (r_trace r)).
Proof.
  intros Hsetsid s r. subst r. rewrite exec_trampoline_eq.
  destruct (trampoline_body_pdeathsig SIGKILL SIGSTOP o
              (run_clone SIGKILL SIGSTOP c) m Hsetsid) as [Hge Hlt].
  split; [ | exact Hlt ].
  intros Hs. split; [ exact (Hge Hs) | ].
  apply trampoline_body_parent_signal; [ | right; split; assumption ].
  intros m' pid rc Hc Hm'.
  destruct c as [e | pid' child]; [ discriminate | ].
  injection Hc as _ Hrc. subst rc.
  now apply exec_trampoline_parent_signal.
Qed.

(** [signal=15]: the call is made with 15 on a descriptor that already
    holds 0. *)
Lemma pdeathsig_step_clears_field_witness :
  let r := exec_trampoline linux_SIGKILL linux_SIGSTOP
             (leaf (all_succeed 4242)) (mkMem (descriptor 0 SIGTERM 0) 0) in
  (exists d,
      In (Call (sys_prctl_set_pdeathsig SIGTERM) None d) (r_trace r)
      /\ parent_signal d = 0)
  /\ parent_signal (data (r_mem r)) = 0.
Proof.
  apply (proj1 (pdeathsig_step_clears_field linux_SIGKILL linux_SIGSTOP
                  (all_succeed 4242) (CloneFails EAGAIN)
                  (mkMem (descriptor 0 SIGTERM 0) 0) (or_introl eq_refl))).
  simpl. unfold SIGTERM. lia.
Defined.




(** C8, as stated, fails on the class of the error: when the caller's
    [clone] fails the exception raised is a plain [Exception], which is not
    an [OSError]. *)
Lemma clone_failure_is_not_oserror :
  cloneandexecve_impl linux_NSIG linux_SIGKILL linux_SIGSTOP path_only
    (mkCaller 0 (CloneFails EAGAIN) 0 0)
  = Raise PyExc_Exception "clone failed with errno=%d" [ArgInt EAGAIN]
  /\ is_instance PyExc_Exception PyExc_OSError = false.
Proof. split; reflexivity. Qed.

(** C8, amended: when the caller's [clone] fails, the call raises at once
    an [Exception] (not an [OSError]) whose message is formatted from the
    platform error code; nothing of the arguments or of the descriptor
    enters the result. *)
Theorem clone_failure_raises_exception (_NSIG SIGKILL SIGSTOP : Z)
    (kw : Kwargs) (a : Parsed) (ce : CallerEnv) (code : Z) :
  cloneandexecve_parse _NSIG kw = Ok a ->
  c_clone ce = CloneFails code ->
  cloneandexecve_impl _NSIG SIGKILL SIGSTOP kw ce
  = Raise PyExc_Exception "clone failed with errno=%d" [ArgInt code].
Proof.
  intros Hparse Hclone. unfold cloneandexecve_impl, cloneandexecve_spawn.
  now rewrite Hparse, Hclone.
Qed.

(** [clone] fails with [EAGAIN]. *)
Lemma clone_failure_raises_exception_witness :
  cloneandexecve_impl linux_NSIG linux_SIGKILL linux_SIGSTOP path_only
    (mkCaller 0 (CloneFails EAGAIN) 0 0)
  = Raise PyExc_Exception "clone failed with errno=%d" [ArgInt EAGAIN].
Proof.
  apply (clone_failure_raises_exception linux_NSIG linux_SIGKILL linux_SIGSTOP
           path_only plain_args (mkCaller 0 (CloneFails EAGAIN) 0 0) EAGAIN);
    reflexivity.
Defined.

(** * Further properties of the converters *)

(** X1: with [_NSIG] an [int], an integer is accepted as a signal number
    exactly when it lies in [0, _NSIG], and the number handed back is the
    integer itself. *)
Theorem signal_number_accepted_iff (_NSIG n : Z) :
  _NSIG < 2 ^ 31 ->
  ((exists v, pylong_to_signum _NSIG (PyLong n) = Ok v) <-> 0 <= n <= _NSIG)
  /\ (forall v, pylong_to_signum _NSIG (PyLong n) = Ok v -> v = n).
Proof.
  intros Hsig. split; [ split | ].
  - intros (v & Hv). now destruct (pylong_to_signum_ok _NSIG n v Hv).
  - intros Hn. exists n. apply pylong_to_signum_valid; lia.
  - intros v Hv. destruct (pylong_to_signum_ok _NSIG n v Hv) as [Hn ->].
    unfold to_int. rewrite Z.mod_small; lia.
Qed.

(** The largest signal number of Linux. *)
Lemma signal_number_accepted_iff_witness :
  exists v, pylong_to_signum linux_NSIG (PyLong 64) = Ok v.
Proof.
  apply (proj1 (signal_number_accepted_iff linux_NSIG 64 eq_refl)).
  unfold linux_NSIG. lia.
Defined.



(** X3: whatever the argument, a mask that [sigign_converter] produces fits
    in 64 bits. *)
Theorem sigign_mask_fits_64_bits (_NSIG : Z) (obj : option PyObject)
    (mask : N) :
  sigign_converter _NSIG obj = Ok mask -> (mask < 2 ^ 64)%N.
Proof.
  destruct obj as [o |]; [ | intros H; injection H as <-; reflexivity ].
  destruct o as [| b | z | [e | b] | [| x l] | l stop].
  - intros H. injection H as <-. reflexivity.
  - destruct b; intros H; injection H as <-; reflexivity.
  - destruct (Z.eq_dec z 0) as [-> | Hz];
      [ intros H; injection H as <-; reflexivity | ].
    destruct (Z_lt_le_dec 0 z) as [Hpos | Hneg];
      [ destruct (Z_le_gt_dec z ULLONG_MAX) as [Hle | Hgt] | ].
    + rewrite (sigign_converter_int _NSIG (PyLong z) z eq_refl (conj Hpos Hle)).
      intros H. injection H as <-. unfold ULLONG_MAX in Hle.
      change (2 ^ 64)%N with (Z.to_N (2 ^ 64)). apply Z2N.inj_lt; lia.
    + unfold sigign_converter, PyObject_IsTrue.
      destruct (Z.eqb_spec z 0); [ contradiction | ].
      change (1 <? 0) with false. change (1 =? 0) with false. cbv iota.
      unfold PyLong_AsUnsignedLongLong, int_value.
      replace ((z <? 0) || (ULLONG_MAX <? z)) with true
        by (symmetry; apply orb_true_iff; right; apply Z.ltb_lt; lia).
      discriminate.
    + unfold sigign_converter, PyObject_IsTrue.
      destruct (Z.eqb_spec z 0); [ contradiction | ].
      change (1 <? 0) with false. change (1 =? 0) with false. cbv iota.
      unfold PyLong_AsUnsignedLongLong, int_value.
      replace ((z <? 0) || (ULLONG_MAX <? z)) with true
        by (symmetry; apply orb_true_iff; left; apply Z.ltb_lt; lia).
      discriminate.
  - discriminate.
  - destruct b; [ discriminate | intros H; injection H as <-; reflexivity ].
  - intros H. injection H as <-. reflexivity.
  - rewrite sigign_converter_seq.
    apply sigign_converter_loop_fits. reflexivity.
  - apply (sigign_converter_loop_fits _NSIG l stop 0%N). reflexivity.
Qed.

(** The signal number 32, for which the mask has its 33 high bits set. *)
Lemma sigign_mask_fits_64_bits_witness : (18446744071562067968 < 2 ^ 64)%N.
Proof.
  apply (sigign_mask_fits_64_bits linux_NSIG (Some (PySeq [PyLong 32]))).
  reflexivity.
Defined.

(** X4: in a sequence, the first element that is refused decides: the
    conversion fails with that element's error, whatever comes after it. *)
Theorem sigign_first_refused_element (_NSIG : Z) (pre : list Z)
    (bad : PyObject) (rest : list PyObject) (e : PyErr) :
  Forall (fun n => 0 <= n <= _NSIG /\ n < 2 ^ 31) pre ->
  pylong_to_signum _NSIG bad = Fail e ->
  sigign_converter _NSIG (Some (PySeq (map PyLong pre ++ bad :: rest)))
  = Fail e.
Proof.
  intros Hpre Hbad.
  destruct (map PyLong pre ++ bad :: rest) as [| x l] eqn:Hl.
  - destruct pre; discriminate.
  - rewrite sigign_converter_seq, <- Hl.
    now apply sigign_converter_loop_refused.
Qed.

(** [sigign=[1, 66, 2]]: 66 is above [_NSIG]. *)
Lemma sigign_first_refused_element_witness :
  sigign_converter linux_NSIG (Some (PySeq [PyLong 1; PyLong 66; PyLong 2]))
  = Fail (Some PyExc_OverflowError).
Proof.
  apply (sigign_first_refused_element linux_NSIG [1] (PyLong 66) [PyLong 2]).
  - repeat constructor; unfold linux_NSIG; lia.
  - reflexivity.
Defined.

(** X5: for signal numbers up to 31, the mask depends only on which nonzero
    numbers occur: order, repetitions and zeros make no difference. *)
Theorem sigign_same_signals_same_mask (_NSIG : Z) (l1 l2 : list Z) :
  Forall (fun n => 0 <= n <= 31 /\ n <= _NSIG) l1 ->
  Forall (fun n => 0 <= n <= 31 /\ n <= _NSIG) l2 ->
  (forall n, 0 < n -> (In n l1 <-> In n l2)) ->
  sigign_converter _NSIG (Some (PySeq (map PyLong l1)))
  = sigign_converter _NSIG (Some (PySeq (map PyLong l2))).
Proof.
  intros H1 H2 Hsame.
  destruct (sigign_converter_low _NSIG l1 H1) as (m1 & -> & Hb1).
  destruct (sigign_converter_low _NSIG l2 H2) as (m2 & -> & Hb2).
  f_equal. apply N.bits_inj. intros i. rewrite Hb1, Hb2.
  apply Bool.eq_iff_eq_true. rewrite !existsb_exists.
  split; intros (n & Hin & Hn); exists n; (split; [ | exact Hn ]);
    apply andb_true_iff in Hn; destruct Hn as [Hpos _];
    apply Z.ltb_lt in Hpos; now apply (Hsame n Hpos).
Qed.

(** [sigign=[2, 1, 2, 0]] and [sigign=[1, 2]]. *)
Lemma sigign_same_signals_same_mask_witness :
  sigign_converter linux_NSIG (Some (PySeq (map PyLong [2; 1; 2; 0])))
  = sigign_converter linux_NSIG (Some (PySeq (map PyLong [1; 2]))).
Proof.
  apply (sigign_same_signals_same_mask linux_NSIG [2; 1; 2; 0] [1; 2]).
  - repeat constructor; unfold linux_NSIG; lia.
  - repeat constructor; unfold linux_NSIG; lia.
  - intros n Hn. simpl. split; intros H; lia.
Defined.

(** X6: an iterator is read like a list: it may end with [StopIteration] or
    without any exception; an exception of another class that it raises
    after elements that are all valid is the result. *)
Theorem sigign_iterator_end (_NSIG : Z) (elems : list PyObject) (l : list Z)
    (exc : PyExc) :
  sigign_converter _NSIG (Some (PyGen elems (Some PyExc_StopIteration)))
  = sigign_converter _NSIG (Some (PyGen elems None))
  /\ (elems <> [] ->
      sigign_converter _NSIG (Some (PyGen elems None))
      = sigign_converter _NSIG (Some (PySeq elems)))
  /\ (Forall (fun n => 0 <= n <= _NSIG /\ n < 2 ^ 31) l ->
      exc <> PyExc_StopIteration ->
      sigign_converter _NSIG (Some (PyGen (map PyLong l) (Some exc)))
      = Fail (Some exc)).
Proof.
  split; [ | split ].
  - cbn. apply sigign_converter_loop_stop.
  - intros Hne. destruct elems as [| x rest]; [ contradiction | reflexivity ].
  - intros Hl Hexc. cbn. now apply sigign_converter_loop_raises.
Qed.

(** A generator that yields 1 and 2 and then raises [ValueError]. *)
Lemma sigign_iterator_end_witness :
  sigign_converter linux_NSIG
    (Some (PyGen (map PyLong [1; 2]) (Some PyExc_ValueError)))
  = Fail (Some PyExc_ValueError).
Proof.
  apply (proj2 (proj2 (sigign_iterator_end linux_NSIG [] [1; 2]
                         PyExc_ValueError))).
  - repeat constructor; unfold linux_NSIG; lia.
  - discriminate.
Defined.

(** X7: [setpdeathsignal] makes at most one call, [prctl] with a value in
    [0, _NSIG] (0 when the argument is missing or [None]); an argument the
    converter refuses makes the call raise before [prctl] is called: the
    exception is the converter's, or [SystemError] when the converter has set
    none, as it does for -1; the result is [None] when [prctl] succeeds and
    [OSError] from its [errno] when it fails. *)
Theorem setpdeathsignal_validates (_NSIG : Z) (signal : option PyObject)
    (prctl_set : Z -> option Z) :
  0 <= _NSIG < 2 ^ 31 ->
  ((exists e,
       signal_0_convert _NSIG signal = Fail e
       /\ setpdeathsignal_impl _NSIG signal prctl_set
          = (PdPropagate (converter_failed e), []))
   \/ (exists s,
          0 <= s <= _NSIG
          /\ signal_0_convert _NSIG signal = Ok s
          /\ (signal = None \/ signal = Some Py_None -> s = 0)
          /\ setpdeathsignal_impl _NSIG signal prctl_set
             = (match prctl_set s with
                | None => PdReturn Py_None
                | Some e => PdFromErrno PyExc_OSError e
                end, [sys_prctl_set_pdeathsig s])))
  /\ setpdeathsignal_impl _NSIG (Some (PyLong (-1))) prctl_set
     = (PdPropagate PyExc_SystemError, [])
  /\ (forall n, n < -1 \/ _NSIG < n ->
       setpdeathsignal_impl _NSIG (Some (PyLong n)) prctl_set
       = (PdPropagate PyExc_OverflowError, [])).
Proof.
  intros Hsig. split; [ | split ].
  - unfold setpdeathsignal_impl.
    destruct (signal_0_convert _NSIG signal) as [s | e] eqn:Hconv.
    + right. exists s.
      assert (Hs : 0 <= s <= _NSIG
                   /\ (signal = None \/ signal = Some Py_None -> s = 0)).
      { unfold signal_0_convert, signal_x_convert in Hconv.
        destruct signal as [[] |];
          try (injection Hconv as <-; split; [ lia | reflexivity ]);
          (split;
           [ eapply pylong_to_signum_in_range; [ | exact Hconv ]; lia
           | intros [H | H]; discriminate H ]). }
      destruct Hs as [Hrange Hdefault].
      repeat split; try assumption; try lia.
      now destruct (prctl_set s).
    + left. exists e. split; reflexivity.
  - reflexivity.
  - intros n Hn. unfold setpdeathsignal_impl, signal_0_convert, signal_x_convert.
    rewrite (pylong_to_signum_refused _NSIG n) by lia.
    destruct (Z.eqb_spec n (-1)); [ lia | reflexivity ].
Qed.

(** [setpdeathsignal(15)], [setpdeathsignal(-1)] and
    [setpdeathsignal(100)]. *)
Lemma setpdeathsignal_validates_witness :
  ((exists e,
       signal_0_convert linux_NSIG (Some (PyLong SIGTERM)) = Fail e
       /\ setpdeathsignal_impl linux_NSIG (Some (PyLong SIGTERM))
            (fun _ => None)
          = (PdPropagate (converter_failed e), []))
   \/ (exists s,
          0 <= s <= linux_NSIG
          /\ signal_0_convert linux_NSIG (Some (PyLong SIGTERM)) = Ok s
          /\ (Some (PyLong SIGTERM) = None
              \/ Some (PyLong SIGTERM) = Some Py_None -> s = 0)
          /\ setpdeathsignal_impl linux_NSIG (Some (PyLong SIGTERM))
               (fun _ => None)
             = (PdReturn Py_None, [sys_prctl_set_pdeathsig s])))
  /\ setpdeathsignal_impl linux_NSIG (Some (PyLong (-1))) (fun _ => None)
     = (PdPropagate PyExc_SystemError, [])
  /\ setpdeathsignal_impl linux_NSIG (Some (PyLong 100)) (fun _ => None)
     = (PdPropagate PyExc_OverflowError, []).
Proof.
  assert (Hsig : 0 <= linux_NSIG < 2 ^ 31) by (unfold linux_NSIG; lia).
  destruct (setpdeathsignal_validates linux_NSIG (Some (PyLong SIGTERM))
              (fun _ => None) Hsig) as (H1 & H2 & H3).
  split; [ exact H1 | split; [ exact H2 | ] ].
  apply H3. unfold linux_NSIG. lia.
Defined.

(** * Further properties of the marshalling *)

(** X8: when [object_as_list_of_bytes] succeeds, the list it returns has
    one byte string for each item, and an item that already is a bytes
    object is in it unchanged, at the same position. *)
Theorem marshalled_list_shape (utf8_strict : list Z -> Converted (list Z))
    (elems : list PyText) (l : list (list Z)) :
  object_as_list_of_bytes utf8_strict (SeqOf elems) = Ok l ->
  List.length l = List.length elems
  /\ (forall i b, nth_error elems i = Some (PyBytes b) ->
                  nth_error l i = Some b).
Proof.
  cbn [object_as_list_of_bytes]. revert l.
  induction elems as [| x rest IH]; intros l; simpl.
  - intros H. injection H as <-. split; [ reflexivity | ].
    intros [| i] b H; discriminate H.
  - destruct (as_bytes utf8_strict x) as [bytes | e] eqn:Hx; [ | discriminate ].
    destruct (as_bytes_each utf8_strict rest) as [l' | e]; [ | discriminate ].
    intros H. injection H as <-.
    destruct (IH l' eq_refl) as [Hlen Hnth].
    split; [ simpl; now rewrite Hlen | ].
    intros [| i] b Hi; simpl in *.
    + injection Hi as ->. simpl in Hx. injection Hx as ->. reflexivity.
    + now apply Hnth.
Qed.

(** [args=[b"ls", "-l"]] with an encoder that keeps the code points. *)
Lemma marshalled_list_shape_witness :
  List.length [[108; 115]; [45; 108]]
  = List.length [PyBytes [108; 115]; PyUnicode [45; 108]]
  /\ (forall i b,
         nth_error [PyBytes [108; 115]; PyUnicode [45; 108]] i
         = Some (PyBytes b) ->
         nth_error [[108; 115]; [45; 108]] i = Some b).
Proof.
  apply (marshalled_list_shape (fun s => Ok s)
           [PyBytes [108; 115]; PyUnicode [45; 108]]).
  reflexivity.
Defined.

(** X9: the first item that [as_bytes] refuses decides, whatever the
    items before it (bytes objects, or [str] objects that encode) and
    whatever follows: the marshalling fails with the error of that item; an
    item that is neither [bytes] nor [str] is refused with [TypeError], a
    bytes object never is; and a sequence that holds, anywhere, an item
    that is neither [bytes] nor [str] is never marshalled. *)
Theorem marshalling_refuses_other_types
    (utf8_strict : list Z -> Converted (list Z))
    (pre : list PyText) (bad : PyText) (rest : list PyText) (e : PyErr) :
  Forall (fun x => exists b, as_bytes utf8_strict x = Ok b) pre ->
  as_bytes utf8_strict bad = Fail e ->
  object_as_list_of_bytes utf8_strict (SeqOf (pre ++ bad :: rest)) = Fail e
  /\ (forall tp_name, bad = PyNotText tp_name -> e = Some PyExc_TypeError)
  /\ (forall b, bad <> PyBytes b)
  /\ (forall elems tp_name l,
         In (PyNotText tp_name) elems ->
         object_as_list_of_bytes utf8_strict (SeqOf elems) <> Ok l).
Proof.
  intros Hpre Hbad. split; [ | split; [ | split ] ].
  - now apply as_bytes_each_first_refused.
  - intros tp_name ->. simpl in Hbad. now injection Hbad as <-.
  - intros b ->. discriminate Hbad.
  - intros elems tp_name. cbn [object_as_list_of_bytes].
    induction elems as [| x elems IH]; intros l Hin; [ destruct Hin | ].
    simpl. destruct Hin as [-> | Hin]; [ discriminate | ].
    destruct (as_bytes utf8_strict x); [ | discriminate ].
    destruct (as_bytes_each utf8_strict elems) as [l' | e'] eqn:Hrest;
      [ | discriminate ].
    exfalso. exact (IH l' Hin eq_refl).
Qed.

(** [args=[b"ls", "\u00e9", 3, "\ud800"]]: the [int] is refused; the
    lone surrogate after it is not looked at. *)
Lemma marshalling_refuses_other_types_witness :
  object_as_list_of_bytes utf8_encode
    (SeqOf [PyBytes [108; 115]; PyUnicode [233]; PyNotText "int";
            PyUnicode [55296]])
  = Fail (Some PyExc_TypeError).
Proof.
  refine (proj1 (marshalling_refuses_other_types utf8_encode
                   [PyBytes [108; 115]; PyUnicode [233]] (PyNotText "int")
                   [PyUnicode [55296]] (Some PyExc_TypeError) _ eq_refl)).
  repeat constructor.
  - exists [108; 115]. reflexivity.
  - exists [195; 169]. reflexivity.
Defined.

(** * Further properties of the trampoline *)

(** X10: the trampoline stops at the first call that fails: in the trace of
    the process, a failed call is followed by [raise(SIGKILL)] and by
    nothing else. *)
Theorem failed_call_ends_the_run (SIGKILL SIGSTOP : Z) (o : SysOutcomes)
    (c : CloneOutcome) (m : Mem) (call : Syscall) (e : Z)
    (d : ExecTrampolineData) :
  let r := exec_trampoline SIGKILL SIGSTOP (Proc o c) m in
  In (Call call (Some e) d) (r_trace r) ->
  exists pre,
    r_trace r
    = pre ++ [Call call (Some e) d;
              Call (sys_raise SIGKILL) None (data (r_mem r))].
Proof.
  cbv zeta. rewrite exec_trampoline_eq. apply trampoline_body_fails_last.
Qed.

(** [setsid] fails with [EAGAIN]: no [prctl], no exec. *)
Lemma failed_call_ends_the_run_witness :
  let o := mkSys 4242 (Some EAGAIN) (fun _ => None) (fun _ => None)
                 (fun _ => None) None in
  let r := exec_trampoline linux_SIGKILL linux_SIGSTOP (leaf o)
             (mkMem (descriptor 2 SIGTERM 0) 0) in
  exists pre,
    r_trace r
    = pre ++ [Call sys_setsid (Some EAGAIN) (descriptor 0 SIGTERM 0);
              Call (sys_raise linux_SIGKILL) None (data (r_mem r))].
Proof.
  intros o r.
  apply (failed_call_ends_the_run linux_SIGKILL linux_SIGSTOP o
           (CloneFails EAGAIN) (mkMem (descriptor 2 SIGTERM 0) 0)
           sys_setsid EAGAIN (descriptor 0 SIGTERM 0)).
  simpl. left. reflexivity.
Defined.

(** X11: when an exec call is made, it is the variant that goes with the
    environment and the search flag the caller asked for; the process has
    recorded its own pid in [childpid]; the session and double-fork flags
    and the ignore mask are clear and [parent_signal] is 0 or negative; and
    the process did not enter with the double-fork flag set. *)
Theorem exec_call_state (SIGKILL SIGSTOP : Z) (o : SysOutcomes)
    (c : CloneOutcome) (m : Mem) (v : ExecVariant) (res : option Z)
    (d : ExecTrampolineData) :
  In (Call (sys_exec v) res d)
     (r_trace (exec_trampoline SIGKILL SIGSTOP (Proc o c) m)) ->
  v = exec_variant_of (data m)
  /\ res = o_exec o v
  /\ childpid d = Z.pos (o_pid o)
  /\ has_flag (flags d) ETD_SETSID = false
  /\ has_flag (flags d) ETD_DOUBLEFORK = false
  /\ parent_signal d <= 0
  /\ sigign d = 0%N
  /\ has_flag (flags (data m)) ETD_DOUBLEFORK = false.
Proof. rewrite exec_trampoline_eq. apply trampoline_body_exec. Qed.

(** [search_path=True], [setsid=True], [signal=15], [sigign=[2]]. *)
Lemma exec_call_state_witness :
  Execvp = exec_variant_of (descriptor 3 SIGTERM 2)
  /\ None = o_exec (all_succeed 4242) Execvp
  /\ childpid (with_childpid (descriptor 1 0 0) 4242) = 4242
  /\ has_flag (flags (with_childpid (descriptor 1 0 0) 4242)) ETD_SETSID
     = false
  /\ has_flag (flags (with_childpid (descriptor 1 0 0) 4242)) ETD_DOUBLEFORK
     = false
  /\ parent_signal (with_childpid (descriptor 1 0 0) 4242) <= 0
  /\ sigign (with_childpid (descriptor 1 0 0) 4242) = 0%N
  /\ has_flag (flags (descriptor 3 SIGTERM 2)) ETD_DOUBLEFORK = false.
Proof.
  apply (exec_call_state linux_SIGKILL linux_SIGSTOP (all_succeed 4242)
           (CloneFails EAGAIN) (mkMem (descriptor 3 SIGTERM 2) 0)).
  simpl. do 4 right. left. reflexivity.
Defined.

(** X12: a process whose image is replaced has written nothing into [fun]
    and [error]; [childpid] holds its pid; and the successful exec call is
    the last thing in its trace. *)
Theorem replaced_image_reports_nothing (SIGKILL SIGSTOP : Z) (o : SysOutcomes)
    (c : CloneOutcome) (m : Mem) :
  let r := exec_trampoline SIGKILL SIGSTOP (Proc o c) m in
  r_outcome r = ImageReplaced ->
  fun_ (data (r_mem r)) = fun_ (data m)
  /\ error (data (r_mem r)) = error (data m)
  /\ childpid (data (r_mem r)) = Z.pos (o_pid o)
  /\ exists pre v, r_trace r = pre ++ [Call (sys_exec v) None (data (r_mem r))].
Proof.
  cbv zeta. rewrite exec_trampoline_eq. apply trampoline_body_replaced.
Qed.

(** A spawn with no option set, every call succeeding. *)
Lemma replaced_image_reports_nothing_witness :
  let r := exec_trampoline linux_SIGKILL linux_SIGSTOP
             (leaf (all_succeed 4242)) (mkMem (descriptor 0 (-1) 0) 0) in
  fun_ (data (r_mem r)) = None
  /\ error (data (r_mem r)) = -1
  /\ childpid (data (r_mem r)) = 4242
  /\ exists pre v, r_trace r = pre ++ [Call (sys_exec v) None (data (r_mem r))].
Proof.
  apply (replaced_image_reports_nothing linux_SIGKILL linux_SIGSTOP
           (all_succeed 4242) (CloneFails EAGAIN)
           (mkMem (descriptor 0 (-1) 0) 0)).
  reflexivity.
Defined.

(** X13: a step name found in [fun] after the process was killed is the
    name of a call the process made and that failed, and [error] holds the
    [errno] of that call. *)
Theorem reported_step_failed (SIGKILL SIGSTOP : Z) (o : SysOutcomes)
    (c : CloneOutcome) (m : Mem) (f : string) :
  let r := exec_trampoline SIGKILL SIGSTOP (Proc o c) m in
  r_outcome r = Killed SIGKILL ->
  fun_ (data (r_mem r)) = Some f ->
  exists call d,
    In (Call call (Some (error (data (r_mem r)))) d) (r_trace r)
    /\ step_name call = f.
Proof.
  cbv zeta. rewrite exec_trampoline_eq. apply trampoline_body_reported.
Qed.

(** [prctl] fails with [EAGAIN]. *)
Lemma reported_step_failed_witness :
  let o := mkSys 4242 None (fun _ => Some EAGAIN) (fun _ => None)
                 (fun _ => None) None in
  let r := exec_trampoline linux_SIGKILL linux_SIGSTOP (leaf o)
             (mkMem (descriptor 0 SIGTERM 0) 0) in
  exists call d,
    In (Call call (Some (error (data (r_mem r)))) d) (r_trace r)
    /\ step_name call = "PR_SET_PDEATHSIG".
Proof.
  intros o r.
  apply (reported_step_failed linux_SIGKILL linux_SIGSTOP o
           (CloneFails EAGAIN) (mkMem (descriptor 0 SIGTERM 0) 0));
    reflexivity.
Defined.

(** X14: a process that enters the trampoline with the double-fork flag set
    never reaches the later steps, whatever happens: of its own calls none
    is a [signal], a [getpid] or an exec. *)
Theorem middle_process_makes_no_later_call (SIGKILL SIGSTOP : Z)
    (o : SysOutcomes) (c : CloneOutcome) (m : Mem) (call : Syscall) :
  has_flag (flags (data m)) ETD_DOUBLEFORK = true ->
  In call (own_calls (r_trace (exec_trampoline SIGKILL SIGSTOP (Proc o c) m))) ->
  (step_rank call <= 3)%nat \/ call = sys_raise SIGKILL.
Proof. rewrite exec_trampoline_eq. apply trampoline_body_middle. Qed.

(** [doublefork=True]: the middle process ends with [raise]. *)
Lemma middle_process_makes_no_later_call_witness :
  (step_rank (sys_raise linux_SIGKILL) <= 3)%nat
  \/ sys_raise linux_SIGKILL = sys_raise linux_SIGKILL.
Proof.
  apply (middle_process_makes_no_later_call linux_SIGKILL linux_SIGSTOP
           (all_succeed 4242) (CloneOk 4243 (leaf (all_succeed 4243)))
           (mkMem (descriptor 4 (-1) 0) 0)).
  - reflexivity.
  - simpl. right. left. reflexivity.
Defined.

(** X15: the [signal] calls of a process are made in strictly increasing
    order of signal number, so that no signal has its disposition set
    twice. *)
Theorem signal_calls_increase (SIGKILL SIGSTOP : Z) (o : SysOutcomes)
    (c : CloneOutcome) (m : Mem) :
  StronglySorted Z.lt
    (signal_numbers (r_trace (exec_trampoline SIGKILL SIGSTOP (Proc o c) m)))
  /\ NoDup
       (signal_numbers (r_trace (exec_trampoline SIGKILL SIGSTOP (Proc o c) m))).
Proof.
  rewrite exec_trampoline_eq.
  pose proof (trampoline_body_signal_order SIGKILL SIGSTOP o
                (run_clone SIGKILL SIGSTOP c) m) as Hsorted.
  split; [ exact Hsorted | ].
  induction Hsorted as [| n l _ IH Hall]; constructor; [ | exact IH ].
  intros Hin. rewrite Forall_forall in Hall. specialize (Hall n Hin). lia.
Qed.

(** X16: when the steps before it pass, the double-fork flag is clear and
    no [signal] call fails, every signal whose bit is set in the mask, other
    than [SIGKILL] and [SIGSTOP], gets its [signal] call. *)
Theorem allowed_signals_are_all_ignored (SIGKILL SIGSTOP : Z)
    (o : SysOutcomes) (c : CloneOutcome) (m : Mem) (n : Z) :
  has_flag (flags (data m)) ETD_SETSID = false \/ o_setsid o = None ->
  parent_signal (data m) < 0 \/ o_prctl o (parent_signal (data m)) = None ->
  has_flag (flags (data m)) ETD_DOUBLEFORK = false ->
  (forall i, o_signal o i = None) ->
  1 <= n -> N.testbit (sigign (data m)) (Z.to_N (n - 1)) = true ->
  n <> SIGKILL -> n <> SIGSTOP ->
  In n (signal_numbers (r_trace (exec_trampoline SIGKILL SIGSTOP (Proc o c) m))).
Proof.
  intros Hs Hp Hd Ho Hn Hbit Hkill Hstop. rewrite exec_trampoline_eq.
  apply trampoline_body_signals_complete; try assumption.
  repeat split; assumption.
Qed.

(** The mask of [sigign=[9, 19, 15]]: signal 15 is ignored. *)
Lemma allowed_signals_are_all_ignored_witness :
  In SIGTERM
     (signal_numbers
        (r_trace (exec_trampoline linux_SIGKILL linux_SIGSTOP
                    (leaf (all_succeed 4242))
                    (mkMem (descriptor 0 (-1) 278784) 0)))).
Proof.
  apply (allowed_signals_are_all_ignored linux_SIGKILL linux_SIGSTOP
           (all_succeed 4242) (CloneFails EAGAIN)
           (mkMem (descriptor 0 (-1) 278784) 0) SIGTERM).
  - left. reflexivity.
  - left. simpl. lia.
  - reflexivity.
  - reflexivity.
  - unfold SIGTERM. lia.
  - reflexivity.
  - discriminate.
  - discriminate.
Defined.

(** X17: the trampoline never changes what is to be executed: [path],
    [argv], [envp] and the search flag are the same in the descriptor it
    leaves, and in the descriptor as it is at every call made by the process
    or by the process it creates. *)
Theorem program_is_never_modified (SIGKILL SIGSTOP : Z) (env : ProcEnv)
    (m : Mem) :
  let r := exec_trampoline SIGKILL SIGSTOP env m in
  same_program (data m) (data (r_mem r))
  /\ Forall (fun ev => same_program (data m) (descriptor_of ev)) (r_trace r).
Proof. apply exec_trampoline_program. Qed.

(** X18: every [prctl(PR_SET_PDEATHSIG, s)] call, of the process or of the
    process it creates, is made with [s >= 0], and [s] is the value the
    caller put in [parent_signal], or 0. *)
Theorem prctl_values (SIGKILL SIGSTOP : Z) (env : ProcEnv) (m : Mem)
    (ev : Event) (s : Z) :
  In ev (r_trace (exec_trampoline SIGKILL SIGSTOP env m)) ->
  call_of ev = sys_prctl_set_pdeathsig s ->
  0 <= s /\ (s = parent_signal (data m) \/ s = 0).
Proof. apply exec_trampoline_prctl. Qed.

(** The child of a double fork with [signal=15]. *)
Lemma prctl_values_witness :
  0 <= 0 /\ (0 = parent_signal (descriptor 4 SIGTERM 0) \/ 0 = 0).
Proof.
  apply (prctl_values linux_SIGKILL linux_SIGSTOP
           (middle_and_child (all_succeed 4243))
           (mkMem (descriptor 4 SIGTERM 0) 0)
           (InChild (Call (sys_prctl_set_pdeathsig 0) None (descriptor 0 0 0)))).
  - simpl. do 2 right. left. reflexivity.
  - reflexivity.
Defined.

(** * Further properties of the spawn as a whole *)

(** X19: after a successful parse of the arguments, every
    [prctl(PR_SET_PDEATHSIG, s)] call made in the new process or in the
    process it creates has [0 <= s <= _NSIG]: no value that was not
    validated reaches the kernel, and the default (no [signal] argument)
    makes no such call with a requested signal. *)
Theorem spawn_prctl_argument_in_range (_NSIG SIGKILL SIGSTOP : Z)
    (kw : Kwargs) (a : Parsed) (env : ProcEnv) (errno0 : Z) (ev : Event)
    (s : Z) :
  0 <= _NSIG < 2 ^ 31 ->
  cloneandexecve_parse _NSIG kw = Ok a ->
  In ev (r_trace (exec_trampoline SIGKILL SIGSTOP env
                    (mkMem (initial_descriptor a) errno0))) ->
  call_of ev = sys_prctl_set_pdeathsig s ->
  0 <= s <= _NSIG.
Proof.
  intros Hsig Hparse Hin Hcall.
  destruct (cloneandexecve_parse_ok _NSIG kw a Hparse) as (Hsignal & _).
  destruct (exec_trampoline_prctl SIGKILL SIGSTOP env _ ev s Hin Hcall)
    as [Hge [Hs | Hs]]; [ | lia ].
  cbn in Hs. subst s.
  unfold signal_m1_convert, signal_x_convert in Hsignal.
  destruct (kw_signal kw) as [[] |];
    try (injection Hsignal as Hm1; lia);
    (eapply pylong_to_signum_in_range; [ | exact Hsignal ]; lia).
Qed.

(** [signal=15]. *)
Lemma spawn_prctl_argument_in_range_witness : 0 <= SIGTERM <= linux_NSIG.
Proof.
  apply (spawn_prctl_argument_in_range linux_NSIG linux_SIGKILL linux_SIGSTOP
           (mkKwargs "/bin/true" None None (Some (PyLong SIGTERM)) None None
                     None None None)
           (mkParsed "/bin/true" None None SIGTERM false false false false 0)
           (leaf (all_succeed 4242)) 0
           (Call (sys_prctl_set_pdeathsig SIGTERM) None
                 (with_parent_signal
                    (initial_descriptor
                       (mkParsed "/bin/true" None None SIGTERM false false
                                 false false 0)) 0))).
  - unfold linux_NSIG. lia.
  - reflexivity.
  - simpl. left. reflexivity.
  - reflexivity.
Defined.

(** X20: encoding then applying gives back the signals asked for: for
    signal numbers up to 31, when the earlier steps pass, the double-fork
    flag is clear and no [signal] call fails, the signals the process sets
    to ignore are exactly the nonzero numbers of the sequence other than
    [SIGKILL] and [SIGSTOP]. *)
Theorem ignored_signals_round_trip (_NSIG SIGKILL SIGSTOP : Z) (l : list Z)
    (o : SysOutcomes) (c : CloneOutcome) (m : Mem) (n : Z) :
  Forall (fun s => 0 <= s <= 31 /\ s <= _NSIG) l ->
  sigign_converter _NSIG (Some (PySeq (map PyLong l))) = Ok (sigign (data m)) ->
  has_flag (flags (data m)) ETD_SETSID = false \/ o_setsid o = None ->
  parent_signal (data m) < 0 \/ o_prctl o (parent_signal (data m)) = None ->
  has_flag (flags (data m)) ETD_DOUBLEFORK = false ->
  (forall i, o_signal o i = None) ->
  In n (signal_numbers (r_trace (exec_trampoline SIGKILL SIGSTOP (Proc o c) m)))
  <-> In n l /\ 0 < n /\ n <> SIGKILL /\ n <> SIGSTOP.
Proof.
  intros Hl Hmask Hs Hp Hd Ho.
  destruct (sigign_converter_low _NSIG l Hl) as (mask & Hconv & Hbits).
  rewrite Hconv in Hmask. injection Hmask as Hmask. subst mask.
  split.
  - intros Hin. apply signal_numbers_in in Hin.
    destruct Hin as (res & d & Hin).
    destruct (exec_trampoline_signals SIGKILL SIGSTOP (Proc o c) m _ n Hin
                eq_refl) as (Hn & Hbit & Hkill & Hstop).
    rewrite Hbits in Hbit. apply existsb_exists in Hbit.
    destruct Hbit as (n' & Hin' & Hn').
    apply andb_true_iff in Hn'. destruct Hn' as [Hpos Heq].
    apply Z.ltb_lt in Hpos. apply N.eqb_eq in Heq.
    assert (n' = n) by lia. subst n'.
    repeat split; try assumption; lia.
  - intros (Hin & Hpos & Hkill & Hstop). rewrite exec_trampoline_eq.
    apply trampoline_body_signals_complete; try assumption.
    repeat split; try assumption; try lia.
    rewrite Hbits. apply existsb_exists. exists n.
    split; [ exact Hin | ].
    apply andb_true_iff. split; [ now apply Z.ltb_lt | apply N.eqb_refl ].
Qed.

(** [sigign=[9, 19, 15]]: signal 9 is not set to ignore, signal 15 is. *)
Lemma ignored_signals_round_trip_witness :
  In SIGTERM
     (signal_numbers
        (r_trace (exec_trampoline linux_SIGKILL linux_SIGSTOP
                    (leaf (all_succeed 4242))
                    (mkMem (descriptor 0 (-1) 278784) 0))))
  <-> In SIGTERM [linux_SIGKILL; linux_SIGSTOP; SIGTERM]
      /\ 0 < SIGTERM /\ SIGTERM <> linux_SIGKILL /\ SIGTERM <> linux_SIGSTOP.
Proof.
  apply (ignored_signals_round_trip linux_NSIG linux_SIGKILL linux_SIGSTOP
           [linux_SIGKILL; linux_SIGSTOP; SIGTERM]
           (all_succeed 4242) (CloneFails EAGAIN)
           (mkMem (descriptor 0 (-1) 278784) 0) SIGTERM).
  - repeat constructor;
      unfold linux_NSIG, linux_SIGKILL, linux_SIGSTOP, SIGTERM; lia.
  - reflexivity.
  - left. reflexivity.
  - left. simpl. lia.
  - reflexivity.
  - reflexivity.
Defined.

(** X21: under [doublefork=True], once the middle process has passed its
    first two steps and created the second process, the caller gets a
    value and no exception, whatever happens in the second process: a
    failure of its exec is not reported. *)
Theorem doublefork_hides_child_failure (SIGKILL SIGSTOP : Z) (a : Parsed)
    (ce : CallerEnv) (pid pid2 : positive) (o : SysOutcomes)
    (child : ProcEnv) (m1 : Mem) (tr1 : list Event) :
  exec_doublefork a = true ->
  c_clone ce = CloneOk pid (Proc o (CloneOk pid2 child)) ->
  (step_setsid o ;; step_pdeathsig o)
    (mkMem (initial_descriptor a) (c_errno ce)) = (m1, tr1, Continue) ->
  exists v, cloneandexecve_spawn SIGKILL SIGSTOP a ce = Return v.
Proof.
  intros Hdf Hclone Hpass.
  rewrite (cloneandexecve_spawn_ok SIGKILL SIGSTOP a ce pid _ Hclone).
  rewrite exec_trampoline_eq.
  rewrite (trampoline_body_doublefork SIGKILL SIGSTOP o _ _ m1 tr1 Hpass)
    by (cbn [data];
        rewrite (proj2 (proj2 (initial_descriptor_flags a))); exact Hdf).
  cbn [run_clone r_mem data fun_ with_error with_fun].
  match goal with
  | |- context [if ?b then Return Py_None else _] => destruct b
  end; eauto.
Qed.

(** The second process cannot find the program; the caller gets its pid. *)
Lemma doublefork_hides_child_failure_witness :
  exists v,
    cloneandexecve_spawn linux_SIGKILL linux_SIGSTOP doublefork_args
      (mkCaller 0 (CloneOk 4242 (middle_and_child (exec_fails 4243 ENOENT)))
                4242 (-1))
    = Return v.
Proof.
  apply (doublefork_hides_child_failure linux_SIGKILL linux_SIGSTOP
           doublefork_args
           (mkCaller 0
              (CloneOk 4242 (middle_and_child (exec_fails 4243 ENOENT)))
              4242 (-1))
           4242 4243 (all_succeed 4242) (leaf (exec_fails 4243 ENOENT))
           (mkMem (initial_descriptor doublefork_args) 0) []);
    reflexivity.
Defined.

(** X22: when the new process has replaced its image and reports the pid
    that [clone] returned, a single wait decides: the caller gets that pid
    if the wait reaped nothing, and [None] if the process is already
    gone; it never gets an exception. *)
Theorem spawn_returns_pid_of_replaced_child (SIGKILL SIGSTOP : Z) (a : Parsed)
    (ce : CallerEnv) (pid : positive) (o : SysOutcomes) (c : CloneOutcome) :
  c_clone ce = CloneOk pid (Proc o c) ->
  o_pid o = pid ->
  r_outcome (exec_trampoline SIGKILL SIGSTOP (Proc o c)
               (mkMem (initial_descriptor a) (c_errno ce))) = ImageReplaced ->
  cloneandexecve_spawn SIGKILL SIGSTOP a ce
  = if c_waitpid1 ce >? 0 then Return Py_None else Return (PyLong (Z.pos pid)).
Proof.
  intros Hclone Hpid Hout.
  rewrite (cloneandexecve_spawn_ok SIGKILL SIGSTOP a ce pid _ Hclone).
  rewrite exec_trampoline_eq in *.
  destruct (trampoline_body_replaced SIGKILL SIGSTOP o _ _ Hout)
    as (Hfun & _ & Hchild & _).
  rewrite Hfun, Hchild, Hpid. cbn [data initial_descriptor fun_].
  rewrite Z.eqb_refl, andb_false_r. reflexivity.
Qed.

(** A spawn with no option set; the program is still running. *)
Lemma spawn_returns_pid_of_replaced_child_witness :
  cloneandexecve_spawn linux_SIGKILL linux_SIGSTOP plain_args
    (mkCaller 0 (CloneOk 4242 (leaf (all_succeed 4242))) 0 0)
  = Return (PyLong 4242).
Proof.
  apply (spawn_returns_pid_of_replaced_child linux_SIGKILL linux_SIGSTOP
           plain_args
           (mkCaller 0 (CloneOk 4242 (leaf (all_succeed 4242))) 0 0)
           4242 (all_succeed 4242) (CloneFails EAGAIN));
    reflexivity.
Defined.

(** X23: the new process calls [setsid] exactly when [setsid=True] was
    asked for. *)
Theorem setsid_called_iff_requested (SIGKILL SIGSTOP : Z) (a : Parsed)
    (o : SysOutcomes) (c : CloneOutcome) (errno0 : Z) :
  In sys_setsid
     (own_calls (r_trace (exec_trampoline SIGKILL SIGSTOP (Proc o c)
                            (mkMem (initial_descriptor a) errno0))))
  <-> exec_setsid a = true.
Proof.
  rewrite exec_trampoline_eq, trampoline_body_setsid. cbn [data].
  now rewrite (proj1 (proj2 (initial_descriptor_flags a))).
Qed.

(** X24: what is executed is what was asked for as C strings, also after
    a double fork: at every exec call made in the new process or in the
    process it creates, the descriptor holds the caller's path, the
    caller's arguments ([path] alone when [args] is missing) and the
    caller's environment, each of them up to its first NUL byte, and the
    variant called is the one for that environment and for
    [search_path]; byte strings without a NUL byte reach the call as they
    are. *)
Theorem exec_gets_the_requested_program (SIGKILL SIGSTOP : Z) (a : Parsed)
    (env : ProcEnv) (errno0 : Z) (ev : Event) (v : ExecVariant) :
  In ev (r_trace (exec_trampoline SIGKILL SIGSTOP env
                    (mkMem (initial_descriptor a) errno0))) ->
  call_of ev = sys_exec v ->
  path (descriptor_of ev) = PyBytes_AS_STRING (exec_path a)
  /\ argv (descriptor_of ev)
     = match exec_args a with
       | Some l => map PyBytes_AS_STRING l
       | None => [PyBytes_AS_STRING (exec_path a)]
       end
  /\ envp (descriptor_of ev)
     = match exec_env a with
       | Some l => Some (map PyBytes_AS_STRING l)
       | None => None
       end
  /\ v = match exec_env a, exec_search_path a with
         | Some _, true => Execvpe
         | Some _, false => Execve
         | None, true => Execvp
         | None, false => Execv
         end
  /\ (has_nul (exec_path a) = false -> path (descriptor_of ev) = exec_path a)
  /\ (forall l, exec_args a = Some l ->
                forallb (fun b => negb (has_nul b)) l = true ->
                argv (descriptor_of ev) = l)
  /\ (forall l, exec_env a = Some l ->
                forallb (fun b => negb (has_nul b)) l = true ->
                envp (descriptor_of ev) = Some l).
Proof.
  intros Hin Hcall.
  destruct (exec_trampoline_program SIGKILL SIGSTOP env
              (mkMem (initial_descriptor a) errno0)) as [_ Hall].
  rewrite Forall_forall in Hall.
  destruct (Hall ev Hin) as (Hpath & Hargv & Henvp & Hflag).
  cbn [data] in Hpath, Hargv, Henvp, Hflag.
  rewrite (proj1 (initial_descriptor_flags a)) in Hflag.
  rewrite (exec_trampoline_exec_variant SIGKILL SIGSTOP env _ ev v Hin Hcall).
  unfold exec_variant_of. rewrite Henvp, Hflag, Hpath, Hargv.
  destruct a as [p ar en sg sb sp ss df mask].
  cbn [initial_descriptor path argv envp exec_path exec_args exec_env
       exec_search_path bytes_list_to_cstring_array fst].
  split; [ reflexivity | ].
  split; [ now destruct ar | ].
  split; [ now destruct en | ].
  split; [ now destruct en, sp | ].
  split; [ apply PyBytes_AS_STRING_no_nul | ].
  split.
  - intros l -> Hl. cbn. now apply map_PyBytes_AS_STRING_no_nul.
  - intros l -> Hl. cbn. now rewrite map_PyBytes_AS_STRING_no_nul.
Qed.

(** The second process of a double fork, with an argument that holds a NUL
    byte: [b"a\0b"] reaches [execv] as ["a"]. *)
Lemma exec_gets_the_requested_program_witness :
  let d := mkETD "/bin/echo" ["echo"; "a"] None 0 (-1) 0 4243 None (-1) in
  path d = "/bin/echo"
  /\ argv d = ["echo"; "a"]
  /\ argv d <> ["echo"; String "a" (String "000" "b")]
  /\ envp d = None.
Proof.
  intros d.
  destruct (exec_gets_the_requested_program linux_SIGKILL linux_SIGSTOP
              nul_args (middle_and_child (all_succeed 4243)) 0
              (InChild (Call (sys_exec Execv) None d)) Execv)
    as (Hpath & Hargv & Henvp & _).
  - simpl. do 2 right. left. reflexivity.
  - reflexivity.
  - split; [ exact Hpath | split; [ exact Hargv | split; [ | exact Henvp ] ] ].
    discriminate.
Defined.
